(** * webhook-receiver: the Docker Hub -> Gotify relay of [scripts/receiver.py]

    A shallow embedding of the Flask application and the proofs of its
    request-handling contract.

    Conventions of the embedding.
    - A Python [str] is a Rocq [string] holding its UTF-8 bytes, a lone
      surrogate (which a JSON escape such as \ud800 decodes to) written as
      any other code point of its range, in three bytes; equality,
      concatenation and splitting on an ASCII character commute with the
      encoding.
    - A decoded JSON document is a [json] value: a [dict] is its keys in
      insertion order together with a [gmap] from keys to values, [int] is
      [Z], [float] is a binary64 float.
    - A computation that prints, calls the notification service and may raise
      is a value of [M]: the effects it performed, in order, and either its
      result or the exception that ended it.
    - The notification service is a function from the request sent to what
      [requests.post] gives back: a response, or an exception.
    - Standard output is a function from the text printed to what [print]
      does with it: it writes the text, or it raises because the encoding
      of [sys.stdout] has no bytes for it. *)

From Stdlib Require Import ZArith String Ascii List Bool Lia Floats.
From stdpp Require Import base option list gmap strings pretty.

Set Warnings "-register-all".

Local Open Scope string_scope.
Local Open Scope Z_scope.

(** ** Python values, exceptions and string operations *)

Module Py.

(** The exceptions this program can meet. All of them derive from
    [Exception], which is what [except Exception] catches. *)
Inductive exn_class : Type :=
  | AttributeError
  | ValueError
  | HTTPException        (* werkzeug: BadRequest, UnsupportedMediaType *)
  | RequestException     (* requests: ConnectionError, Timeout, ... *)
  | UnicodeEncodeError
  | OtherException.

(** [exn_msg] is [str(e)], what an f-string prints for the exception. *)
Record exn : Type := mk_exn { exn_kind : exn_class; exn_msg : string }.

Inductive result (A : Type) : Type :=
  | Ok (a : A)
  | Raise (e : exn).
Arguments Ok {A} a.
Arguments Raise {A} e.

Inductive json : Type :=
  | JNull
  | JBool (b : bool)
  | JInt (n : Z)
  | JFloat (f : PrimFloat.float)
  | JStr (s : string)
  | JArr (l : list json)
  | JObj (keys : list string) (d : gmap string json).

Definition is_dict (v : json) : bool :=
  match v with JObj _ _ => true | _ => false end.

(** [type(v).__name__] *)
Definition type_name (v : json) : string :=
  match v with
  | JNull => "NoneType"
  | JBool _ => "bool"
  | JInt _ => "int"
  | JFloat _ => "float"
  | JStr _ => "str"
  | JArr _ => "list"
  | JObj _ _ => "dict"
  end.

Definition no_attribute (v : json) (attr : string) : exn :=
  mk_exn AttributeError
    ("'" +:+ type_name v +:+ "' object has no attribute '" +:+ attr +:+ "'").

(** [v.get(key, dflt)]: a [dict] method; any other JSON value has no
    attribute [get]. *)
Definition py_get (v : json) (key : string) (dflt : json) : result json :=
  match v with
  | JObj _ d => Ok (default dflt (d !! key))
  | _ => Raise (no_attribute v "get")
  end.

(** [v == s] for a [str] [s]: a value of another type is never equal to a
    string. *)
Definition py_eq_str (v : json) (s : string) : bool :=
  match v with
  | JStr s' => bool_decide (s' = s)
  | _ => false
  end.

(** [v in l] for a list of strings [l]. *)
Definition py_in (v : json) (l : list string) : bool :=
  existsb (py_eq_str v) l.

(** Truth value of an [Optional[str]]: [None] and [''] are false. *)
Definition truthy_opt (o : option string) : bool :=
  match o with
  | Some (String _ _) => true
  | _ => false
  end.

Definition truthy_str (s : string) : bool :=
  match s with "" => false | _ => true end.

(** *** [str.split(sep)] for a one-character separator *)

Fixpoint split (sep : ascii) (s : string) : list string :=
  match s with
  | "" => [""]
  | String c s' =>
      if Ascii.eqb c sep then "" :: split sep s'
      else match split sep s' with
           | w :: ws => String c w :: ws
           | [] => [String c ""]
           end
  end.

(** *** [str.strip()]

    Python strips the characters for which [str.isspace] holds: U+0009 to
    U+000D, U+001C to U+0020, U+0085, U+00A0, U+1680, U+2000 to U+200A,
    U+2028, U+2029, U+202F, U+205F and U+3000. On the UTF-8 bytes these are
    the one-, two- and three-byte sequences below. *)

Definition byte (c : ascii) : N := N_of_ascii c.

Definition space1 (c : ascii) : bool :=
  let n := byte c in
  ((9 <=? n) && (n <=? 13) || (28 <=? n) && (n <=? 32))%N.

Definition space2 (c1 c2 : ascii) : bool :=
  ((byte c1 =? 194) && ((byte c2 =? 133) || (byte c2 =? 160)))%N.

Definition space3 (c1 c2 c3 : ascii) : bool :=
  let n1 := byte c1 in let n2 := byte c2 in let n3 := byte c3 in
  ((n1 =? 225) && (n2 =? 154) && (n3 =? 128)
   || (n1 =? 226) && (n2 =? 128)
      && ((128 <=? n3) && (n3 <=? 138) || (n3 =? 168) || (n3 =? 169) || (n3 =? 175))
   || (n1 =? 226) && (n2 =? 129) && (n3 =? 159)
   || (n1 =? 227) && (n2 =? 128) && (n3 =? 128))%N.

(** With [fwd = false] a string is read back to front, so the bytes of a
    character arrive in reverse order. *)
Definition space2_at (fwd : bool) (c1 c2 : ascii) : bool :=
  if fwd then space2 c1 c2 else space2 c2 c1.
Definition space3_at (fwd : bool) (c1 c2 c3 : ascii) : bool :=
  if fwd then space3 c1 c2 c3 else space3 c3 c2 c1.

(** Drop whitespace characters from the front. *)
Fixpoint strip_front (fwd : bool) (s : string) : string :=
  match s with
  | "" => ""
  | String c1 r1 =>
      if space1 c1 then strip_front fwd r1
      else
        match r1 with
        | String c2 r2 =>
            if space2_at fwd c1 c2 then strip_front fwd r2
            else
              match r2 with
              | String c3 r3 =>
                  if space3_at fwd c1 c2 c3 then strip_front fwd r3 else s
              | "" => s
              end
        | "" => s
        end
  end.

Definition lstrip (s : string) : string := strip_front true s.
Definition rstrip (s : string) : string :=
  String.rev (strip_front false (String.rev s)).
Definition strip (s : string) : string := rstrip (lstrip s).

(** *** Text that UTF-8 cannot encode

    A lone surrogate, U+D800 to U+DFFF, is the three bytes ED, A0 to BF,
    80 to BF. The UTF-8 codec refuses it, and the error handlers Python
    gives [sys.stdout] do not replace it. *)

Definition surrogate3 (c1 c2 c3 : ascii) : bool :=
  ((byte c1 =? 237) && (160 <=? byte c2) && (byte c2 <=? 191)
   && (128 <=? byte c3) && (byte c3 <=? 191))%N.

(** The code point of the surrogate written [ED c2 c3]. *)
Definition surrogate_code (c2 c3 : ascii) : N :=
  (53248 + (byte c2 - 128) * 64 + (byte c3 - 128))%N.

(** A byte that continues a character, 80 to BF. *)
Definition continuation (c : ascii) : bool :=
  ((128 <=? byte c) && (byte c <=? 191))%N.

(** How many surrogates follow each other at the front of [s]. *)
Fixpoint surrogate_run (s : string) : N :=
  match s with
  | String c1 (String c2 (String c3 r)) =>
      if surrogate3 c1 c2 c3 then (1 + surrogate_run r)%N else 0%N
  | _ => 0%N
  end.

(** The first surrogate of [s]: the index of its character, counting from
    [pos], its code point, and how many surrogates stand there in a row. *)
Fixpoint first_surrogate (pos : N) (s : string) : option (N * N * N) :=
  match s with
  | "" => None
  | String c1 r1 =>
      match r1 with
      | String c2 (String c3 _) =>
          if surrogate3 c1 c2 c3
          then Some (pos, surrogate_code c2 c3, surrogate_run s)
          else first_surrogate (if continuation c1 then pos else pos + 1)%N r1
      | _ => first_surrogate (if continuation c1 then pos else pos + 1)%N r1
      end
  end.

Definition hex_digit (n : N) : ascii :=
  ascii_of_N (if (n <? 10)%N then 48 + n else 87 + n)%N.

(** ['\udXXX'], the way the message of the error shows the character. *)
Definition escaped_code (code : N) : string :=
  String "092" (String "u"
    (String (hex_digit (code / 4096 mod 16)%N)
       (String (hex_digit (code / 256 mod 16)%N)
          (String (hex_digit (code / 16 mod 16)%N)
             (String (hex_digit (code mod 16)%N) ""))))).

(** [str(e)] of the UnicodeEncodeError the UTF-8 codec raises. *)
Definition surrogates_not_allowed (pos code run : N) : exn :=
  mk_exn UnicodeEncodeError
    (if (run =? 1)%N then
       "'utf-8' codec can't encode character '" +:+ escaped_code code
         +:+ "' in position " +:+ pretty pos +:+ ": surrogates not allowed"
     else
       "'utf-8' codec can't encode characters in position " +:+ pretty pos
         +:+ "-" +:+ pretty (pos + run - 1)%N +:+ ": surrogates not allowed").

(** Writing [text] to a [sys.stdout] whose encoding is UTF-8. *)
Definition utf8_stdout (text : string) : result unit :=
  match first_surrogate 0 text with
  | Some (pos, code, run) => Raise (surrogates_not_allowed pos code run)
  | None => Ok tt
  end.

(** *** f-strings

    [f"{v}"] is [str(v)]: a [str] is inserted as it is; for any other value
    Python inserts its [repr], which this development takes as a
    parameter. *)
Section Format.
Variable py_repr : json -> string.

Definition py_str (v : json) : string :=
  match v with
  | JStr s => s
  | _ => py_repr v
  end.
End Format.

(** A [repr] for the values whose rendering is immediate; used to run the
    model on examples. *)
Definition atom_repr (v : json) : string :=
  match v with
  | JNull => "None"
  | JBool true => "True"
  | JBool false => "False"
  | JInt n => pretty n
  | _ => "..."
  end.

End Py.

(** ** Effects: printing, the outbound HTTP call, exceptions *)

Module Eff.
Import Py.

(** [requests.post(url, params=..., json=...)] *)
Record post_request : Type := mk_post {
  post_url : string;
  post_params : gmap string string;
  post_json : json
}.

(** The part of a [requests.Response] the program reads. *)
Record post_response : Type := mk_response {
  status_code : Z;
  text : string
}.

(** The notification service as the program sees it: for a request, either
    a response or the exception [requests.post] raises. *)
Definition service : Type := post_request -> result post_response.

Inductive effect : Type :=
  | Print (line : string)
  | HttpPost (req : post_request).

Definition M (A : Type) : Type := (list effect * result A)%type.

Definition ret {A} (a : A) : M A := ([], Ok a).
Definition raise {A} (e : exn) : M A := ([], Raise e).
Definition lift {A} (r : result A) : M A := ([], r).

Definition bind {A B} (m : M A) (k : A -> M B) : M B :=
  match m with
  | (tr, Ok a) => let '(tr', r) := k a in ((tr ++ tr')%list, r)
  | (tr, Raise e) => (tr, Raise e)
  end.

(** [try: m  except Exception as e: h e] *)
Definition catch {A} (m : M A) (h : exn -> M A) : M A :=
  match m with
  | (tr, Raise e) => let '(tr', r) := h e in ((tr ++ tr')%list, r)
  | (tr, Ok a) => (tr, Ok a)
  end.

(** [print(line)] of a text that does not come from the request body:
    literals, the configuration, the decoded answer of the notification
    service, [str(e)]. Such text is taken to be text [sys.stdout] can
    write. *)
Definition print (line : string) : M unit := ([Print line], Ok tt).

(** What [sys.stdout] does with a text: it writes it, or it raises
    (UnicodeEncodeError when its encoding has no bytes for the text) and
    writes nothing. *)
Definition stdout_port : Type := string -> result unit.

(** [print(line)] of a text that holds strings of the request body. *)
Definition print_to (stdout : stdout_port) (line : string) : M unit :=
  match stdout line with
  | Ok _ => ([Print line], Ok tt)
  | Raise e => ([], Raise e)
  end.

Definition http_post (svc : service) (req : post_request) : M post_response :=
  ([HttpPost req], svc req).

(** The outbound calls of a trace, in order. *)
Definition posts (tr : list effect) : list post_request :=
  omap (fun e => match e with HttpPost r => Some r | Print _ => None end) tr.

Definition trace {A} (m : M A) : list effect := fst m.
Definition outcome {A} (m : M A) : result A := snd m.

End Eff.

Notation "'let*' x ':=' c 'in' k" := (Eff.bind c (fun x => k))
  (at level 10, x name, c at level 100, k at level 200, only parsing).
Notation "'run' c 'in' k" := (Eff.bind c (fun _ => k))
  (at level 10, c at level 100, k at level 200, only parsing).

(** ** Configuration: lines 9 to 22 *)

Module Config.
Import Py Eff.

(** The module-level values once the checks of lines 15 to 19 have passed;
    [GOTIFY_TOKEN] is then a non-empty [str]. *)
Record config : Type := mk_config {
  GOTIFY_URL : string;
  GOTIFY_TOKEN : string;
  WATCHED_IMAGES : list string
}.

(** [os.getenv(name)] and [os.getenv(name, dflt)] on the process
    environment. *)
Definition getenv (env : gmap string string) (name : string) : option string :=
  env !! name.
Definition getenv_or (env : gmap string string) (name dflt : string) : string :=
  default dflt (env !! name).

(** [[img.strip() for img in s.split(',') if img.strip()]] *)
Definition watched_of (s : string) : list string :=
  List.map strip (List.filter (fun img => truthy_str (strip img)) (split "," s)).

Definition token_required : exn :=
  mk_exn ValueError "GOTIFY_TOKEN environment variable is required".
Definition images_required : exn :=
  mk_exn ValueError "WATCHED_IMAGES environment variable is required".

(** The process after its module body has run: it serves requests only
    when the module body ended without an exception. *)
Inductive process : Type :=
  | Exited (e : exn)
  | Serving (cfg : config).

Section Load.
Variable py_repr : json -> string.

Definition load (env : gmap string string) : M config :=
  let url := getenv_or env "GOTIFY_URL" "http://localhost:80" in
  let token := getenv env "GOTIFY_TOKEN" in
  let WATCHED_IMAGES_STR := getenv_or env "WATCHED_IMAGES" "" in
  let watched := watched_of WATCHED_IMAGES_STR in
  run (if negb (truthy_opt token) then raise token_required else ret tt) in
  run (if match watched with [] => true | _ => false end
       then raise images_required else ret tt) in
  run print ("Gotify URL: " +:+ url) in
  run print ("Watching images: " +:+ py_repr (JArr (List.map JStr watched))) in
  ret {| GOTIFY_URL := url;
         GOTIFY_TOKEN := default "" token;
         WATCHED_IMAGES := watched |}.

Definition start (env : gmap string string) : list effect * process :=
  match load env with
  | (tr, Raise e) => (tr, Exited e)
  | (tr, Ok cfg) => (tr, Serving cfg)
  end.
End Load.

End Config.

(** ** The request handlers: lines 24 to 78 *)

Module Receiver.
Import Py Eff Config.

Inductive body : Type :=
  | Text (s : string)
  | Jsonify (v : json).

(** What a view function returns: [(body, status)]. *)
Definition response : Type := (body * Z)%type.

Definition title : string := "🐳 New Docker Tag Released".

(** The four values of lines 34 to 37. *)
Record fields : Type := mk_fields {
  repo_name : json;
  repo_full_name : json;
  tag : json;
  pushed_at : json
}.

(** [data.get(outer, {}).get(inner, 'Unknown')] *)
Definition get2 (data : json) (outer inner : string) : M json :=
  let* o := lift (py_get data outer (JObj [] ∅)) in
  lift (py_get o inner (JStr "Unknown")).

Definition extract (data : json) : M fields :=
  let* repo_name := get2 data "repository" "name" in
  let* repo_full_name := get2 data "repository" "repo_name" in
  let* tag := get2 data "target" "tag" in
  let* pushed_at := get2 data "target" "date" in
  ret (mk_fields repo_name repo_full_name tag pushed_at).

Section Handlers.
Variable py_repr : json -> string.
Variable stdout : stdout_port.
Variable cfg : config.

(** [f"{v}"] *)
Definition fmt (v : json) : string := py_str py_repr v.

Definition nl : string := String "010" "".

Definition message_of (f : fields) : string :=
  "**Image:** " +:+ fmt (repo_full_name f) +:+ nl +:+ "**Tag:** "
    +:+ fmt (tag f) +:+ nl +:+ "**Pushed:** " +:+ fmt (pushed_at f).

Definition gotify_payload (f : fields) : json :=
  JObj ["title"; "message"; "priority"]
       {[ "title" := JStr title;
          "message" := JStr (message_of f);
          "priority" := JInt 5 ]}.

Definition gotify_request (f : fields) : post_request :=
  {| post_url := GOTIFY_URL cfg +:+ "/message";
     post_params := {[ "token" := GOTIFY_TOKEN cfg ]};
     post_json := gotify_payload f |}.

Definition not_watched (f : fields) : bool :=
  negb (py_in (repo_name f) (WATCHED_IMAGES cfg))
  && negb (py_in (repo_full_name f) (WATCHED_IMAGES cfg)).

(** Lines 40 to 66: the filter and the notification. *)
Definition notify (svc : service) (f : fields) : M response :=
  if not_watched f then
    run print_to stdout
          ("Image " +:+ fmt (repo_full_name f) +:+ " not in watch list") in
    ret (Text ("Image " +:+ fmt (repo_full_name f) +:+ " not in watch list"), 200)
  else
    let* response := http_post svc (gotify_request f) in
    if status_code response =? 200 then
      run print_to stdout
            ("Notification sent for " +:+ fmt (repo_full_name f) +:+ ":"
               +:+ fmt (tag f)) in
      ret (Text "Notification sent", 200)
    else
      run print ("Failed to send notification: " +:+ pretty (status_code response)
                   +:+ " - " +:+ text response) in
      ret (Text "Failed to send notification", 500).

(** Lines 27 to 66: the body of the [try]. [request_json] is what
    evaluating [request.json] gives: the decoded body, or the exception
    raised for a body that does not decode. *)
Definition webhook_try (svc : service) (request_json : result json) : M response :=
  let* data := lift request_json in
  let* action := lift (py_get data "action" JNull) in
  if negb (py_eq_str action "push") then
    ret (Text "Not a push event", 200)
  else
    let* f := extract data in
    notify svc f.

(** Lines 68 to 70 *)
Definition webhook_except (e : exn) : M response :=
  run print ("Error processing webhook: " +:+ exn_msg e) in
  ret (Text "Error processing webhook", 500).

Definition docker_webhook (svc : service) (request_json : result json) : M response :=
  catch (webhook_try svc request_json) webhook_except.

Definition health_check : M response :=
  ret (Jsonify (JObj ["status"; "gotify_url"; "watched_images"]
                     {[ "status" := JStr "running";
                        "gotify_url" := JStr (GOTIFY_URL cfg);
                        "watched_images" := JArr (List.map JStr (WATCHED_IMAGES cfg)) ]}),
       200).
End Handlers.

(** *** The running server

    Flask calls the view function of the route for each request. The module
    globals are the only state the view functions can see; what the process
    printed and sent so far is kept next to them. The notification service
    may answer differently from one request to the next, so each arrival
    carries the service as it is while that request is handled. *)

Inductive request : Type :=
  | POST_docker_webhook (request_json : result json)
  | GET_health.

Record arrival : Type := mk_arrival {
  arr_request : request;
  arr_gotify : service
}.

Record server : Type := mk_server {
  globals : config;
  history : list effect
}.

Section Server.
Variable py_repr : json -> string.
Variable stdout : stdout_port.

Definition dispatch (cfg : config) (a : arrival) : M response :=
  match arr_request a with
  | POST_docker_webhook rj => docker_webhook py_repr stdout cfg (arr_gotify a) rj
  | GET_health => health_check cfg
  end.

(** One request. [Raise e] in the result stands for an exception that left
    the view function. *)
Definition step (st : server) (a : arrival) : server * result response :=
  let '(tr, r) := dispatch (globals st) a in
  ({| globals := globals st; history := (history st ++ tr)%list |}, r).

Fixpoint serve (st : server) (l : list arrival) : server * list (result response) :=
  match l with
  | [] => (st, [])
  | a :: l' =>
      let '(st1, r) := step st a in
      let '(st2, rs) := serve st1 l' in
      (st2, r :: rs)
  end.
End Server.

End Receiver.

(** ** Worked examples *)

Module Examples.
Import Py Eff Config Receiver.

Definition env : gmap string string :=
  {[ "GOTIFY_TOKEN" := "s3cret"; "WATCHED_IMAGES" := " myapp/web, ,nginx ," ]}.

Definition cfg : config := mk_config "http://localhost:80" "s3cret" ["myapp/web"; "nginx"].

(** The keys of an event, of its repository and of its target, in the
    order of the document. *)
Definition event_keys : list string := ["action"; "repository"; "target"].
Definition repository_keys : list string := ["name"; "repo_name"].
Definition target_keys : list string := ["tag"; "date"].

Definition repository : gmap string json :=
  {[ "name" := JStr "web"; "repo_name" := JStr "myapp/web" ]}.
Definition target : gmap string json :=
  {[ "tag" := JStr "v2.1"; "date" := JStr "2024-01-01T00:00:00Z" ]}.

Definition push_event : gmap string json :=
  {[ "action" := JStr "push";
     "repository" := JObj repository_keys repository;
     "target" := JObj target_keys target ]}.
Definition push_request : post_request :=
  {| post_url := "http://localhost:80/message";
     post_params := {[ "token" := "s3cret" ]};
     post_json :=
       JObj ["title"; "message"; "priority"]
            {[ "title" := JStr title;
               "message" := JStr ("**Image:** myapp/web" +:+ String "010" "**Tag:** v2.1"
                                  +:+ String "010" "**Pushed:** 2024-01-01T00:00:00Z");
               "priority" := JInt 5 ]} |}.

Definition other_repository : gmap string json :=
  {[ "name" := JStr "redis"; "repo_name" := JStr "library/redis" ]}.
Definition other_event : gmap string json :=
  {[ "action" := JStr "push";
     "repository" := JObj repository_keys other_repository;
     "target" := JObj target_keys target ]}.
Definition delete_keys : list string := ["action"; "repository"].
Definition delete_event : gmap string json :=
  {[ "action" := JStr "delete"; "repository" := JObj repository_keys repository ]}.

Definition bare_keys : list string := ["action"].
Definition bare_event : gmap string json := {[ "action" := JStr "push" ]}.

Definition null_target_event : gmap string json :=
  {[ "action" := JStr "push";
     "repository" := JObj repository_keys repository;
     "target" := JNull ]}.

Definition untrimmed_repository : gmap string json :=
  {[ "name" := JStr " nginx"; "repo_name" := JStr " library/nginx" ]}.
Definition untrimmed_event : gmap string json :=
  {[ "action" := JStr "push";
     "repository" := JObj repository_keys untrimmed_repository;
     "target" := JObj target_keys target ]}.

(** U+D800, what the JSON escape \ud800 decodes to. *)
Definition lone_surrogate : string := String "237" (String "160" (String "128" "")).

(** A push of a watched image whose tag holds a lone surrogate. *)
Definition odd_tag_target : gmap string json :=
  {[ "tag" := JStr ("v2" +:+ lone_surrogate); "date" := JStr "2024-01-01T00:00:00Z" ]}.
Definition odd_tag_event : gmap string json :=
  {[ "action" := JStr "push";
     "repository" := JObj repository_keys repository;
     "target" := JObj target_keys odd_tag_target ]}.

(** A push of an image that is not watched and whose full name holds a lone
    surrogate. *)
Definition odd_name_repository : gmap string json :=
  {[ "name" := JStr "redis"; "repo_name" := JStr ("library/" +:+ lone_surrogate) ]}.
Definition odd_name_event : gmap string json :=
  {[ "action" := JStr "push";
     "repository" := JObj repository_keys odd_name_repository;
     "target" := JObj target_keys target ]}.

(** A notification service that answers every request with [code]. *)
Definition answering (code : Z) : service :=
  fun _ => Ok (mk_response code "{}").

Definition unreachable : service :=
  fun _ => Raise (mk_exn RequestException "Connection refused").

Definition bad_request : exn :=
  mk_exn HTTPException "400 Bad Request: Failed to decode JSON object".

End Examples.


(** ** The vocabulary of the specification *)

Module Spec.
Import Py Eff Config Receiver.

(** The object an event holds under [key]. A missing key counts as the
    empty object; a key that holds anything but an object gives [None]. *)
Definition sub_object (d : gmap string json) (key : string) : option (gmap string json) :=
  match d !! key with
  | None => Some ∅
  | Some (JObj _ o) => Some o
  | Some _ => None
  end.

(** A field of the event, with the placeholder for a missing one. *)
Definition field (o : gmap string json) (key : string) : json :=
  default (JStr "Unknown") (o !! key).

(** [d] is a push event shaped [{action, repository: r, target: t}]. *)
Definition push_event (d r t : gmap string json) : Prop :=
  d !! "action" = Some (JStr "push")
  /\ sub_object d "repository" = Some r
  /\ sub_object d "target" = Some t.

(** What the event stores at [outer.inner], if anything. *)
Definition stored (d : gmap string json) (outer inner : string) : option json :=
  match d !! outer with
  | Some (JObj _ o) => o !! inner
  | _ => None
  end.

(** The field [outer.inner] is absent: [outer] is missing, or it is an
    object without [inner]. *)
Definition absent (d : gmap string json) (outer inner : string) : Prop :=
  match d !! outer with
  | None => True
  | Some (JObj _ o) => o !! inner = None
  | Some _ => False
  end.

(** [x] is the stored value of the field when the event stores one, and
    the placeholder otherwise. *)
Definition as_stored (d : gmap string json) (outer inner : string) (x : json) : Prop :=
  match stored d outer inner with
  | Some v => x = v
  | None => x = JStr "Unknown"
  end.

Definition fields_of (r t : gmap string json) : fields :=
  mk_fields (field r "name") (field r "repo_name") (field t "tag") (field t "date").

(** The image of the event is on the watch list, by short or by full name. *)
Definition watched (cfg : config) (r : gmap string json) : bool :=
  py_in (field r "name") (WATCHED_IMAGES cfg)
  || py_in (field r "repo_name") (WATCHED_IMAGES cfg).

(** [x] occurs in [s]. *)
Fixpoint contains (x s : string) : bool :=
  String.prefix x s
  || match s with
     | "" => false
     | String _ s' => contains x s'
     end.

(** An HTTP success status: 200 to 299. *)
Definition success_status (code : Z) : bool := (200 <=? code) && (code <=? 299).




(** The configuration lacks the token: [GOTIFY_TOKEN] is unset or empty. *)
Definition no_token (env : gmap string string) : Prop :=
  env !! "GOTIFY_TOKEN" = None \/ env !! "GOTIFY_TOKEN" = Some "".

(** The configuration names no image: [WATCHED_IMAGES] is unset, or every
    entry between its commas is empty once trimmed (the empty string has
    one such entry). *)
Definition no_images (env : gmap string string) : Prop :=
  match env !! "WATCHED_IMAGES" with
  | None => True
  | Some s => Forall (fun entry => strip entry = "") (split "," s)
  end.

(** [s] begins with a whitespace character. *)
Definition space_at_front (fwd : bool) (s : string) : bool :=
  match s with
  | String c1 (String c2 (String c3 _)) =>
      space1 c1 || space2_at fwd c1 c2 || space3_at fwd c1 c2 c3
  | String c1 (String c2 "") => space1 c1 || space2_at fwd c1 c2
  | String c1 "" => space1 c1
  | "" => false
  end.

(** [s] is a run of whitespace characters. *)
Inductive spaces (fwd : bool) : string -> Prop :=
  | spaces_nil : spaces fwd ""
  | spaces_1 c s :
      space1 c = true -> spaces fwd s -> spaces fwd (String c s)
  | spaces_2 c1 c2 s :
      space2_at fwd c1 c2 = true -> spaces fwd s ->
      spaces fwd (String c1 (String c2 s))
  | spaces_3 c1 c2 c3 s :
      space3_at fwd c1 c2 c3 = true -> spaces fwd s ->
      spaces fwd (String c1 (String c2 (String c3 s))).

(** [c] occurs in [s]. *)
Fixpoint occurs (c : ascii) (s : string) : bool :=
  match s with
  | "" => false
  | String c' s' => Ascii.eqb c' c || occurs c s'
  end.

(** [sep.join(l)] *)
Fixpoint join (sep : string) (l : list string) : string :=
  match l with
  | [] => ""
  | [x] => x
  | x :: l' => x +:+ sep +:+ join sep l'
  end.

Definition error_response : response := (Text "Error processing webhook", 500).

End Spec.

(** ** Observations on traces, requests and watch-list entries *)

Module Obs.
Import Py Eff Config Receiver Spec.

(** The texts a trace printed, in order: one for each call of [print] that
    wrote its text. *)
Definition prints (tr : list effect) : list string :=
  omap (fun e => match e with Print line => Some line | HttpPost _ => None end) tr.

Definition is_str (v : json) : bool :=
  match v with JStr _ => true | _ => false end.

(** The string a JSON value is, if it is one. *)
Definition as_str (v : json) : option string :=
  match v with JStr s => Some s | _ => None end.

(** How many of the arrivals are webhook deliveries. *)
Fixpoint webhook_requests (l : list arrival) : nat :=
  match l with
  | [] => 0%nat
  | a :: l' =>
      match arr_request a with
      | POST_docker_webhook _ => S (webhook_requests l')
      | GET_health => webhook_requests l'
      end
  end.

(** The same body delivered once for each of [svcs], the notification
    service as it is at each delivery. *)
Definition deliveries (rj : result json) (svcs : list service) : list arrival :=
  List.map (mk_arrival (POST_docker_webhook rj)) svcs.

(** How often [c] occurs in [s]. *)
Fixpoint count_char (c : ascii) (s : string) : nat :=
  match s with
  | "" => 0%nat
  | String c' s' => ((if Ascii.eqb c' c then 1 else 0) + count_char c s')%nat
  end.

(** [x] has no whitespace character at either end. *)
Definition trimmed (x : string) : Prop :=
  space_at_front true x = false /\ space_at_front false (String.rev x) = false.

(** What a watch-list entry looks like: not empty, trimmed, without a
    comma. *)
Definition clean_entry (x : string) : Prop :=
  x <> "" /\ trimmed x /\ occurs "," x = false.

(** What an f-string shows for a value: a string as it is, any other value
    by its [repr]. *)
Definition shown (py_repr : json -> string) (v : json) : string :=
  match as_str v with
  | Some s => s
  | None => py_repr v
  end.

(** The three lines of a notification. *)
Definition three_lines (image tag pushed : string) : string :=
  "**Image:** " +:+ image
    +:+ String "010" ("**Tag:** " +:+ tag
    +:+ String "010" ("**Pushed:** " +:+ pushed)).

(** The line printed for an event that is not watched, which is also the
    body of the answer, and the line printed once a notification is sent. *)
Definition skipped_line (py_repr : json -> string) (r : gmap string json) : string :=
  "Image " +:+ shown py_repr (field r "repo_name") +:+ " not in watch list".
Definition sent_line (py_repr : json -> string) (r t : gmap string json) : string :=
  "Notification sent for " +:+ shown py_repr (field r "repo_name")
    +:+ ":" +:+ shown py_repr (field t "tag").

(** The reading under which every watched push event whose downstream call
    succeeds, [succeeds] telling which statuses are a success, is sent once
    and answered 200 "Notification sent". *)
Definition watched_push_is_always_notified (succeeds : Z -> bool) : Prop :=
  forall (py_repr : json -> string) (stdout : stdout_port) (cfg : config) (svc : service)
         (ks : list string) (d r t : gmap string json) (resp : post_response),
    push_event d r t ->
    watched cfg r = true ->
    svc (gotify_request py_repr cfg (fields_of r t)) = Ok resp ->
    succeeds (status_code resp) = true ->
    posts (trace (docker_webhook py_repr stdout cfg svc (Ok (JObj ks d))))
    = [gotify_request py_repr cfg (fields_of r t)]
    /\ outcome (docker_webhook py_repr stdout cfg svc (Ok (JObj ks d)))
       = Ok (Text "Notification sent", 200).

(** The reading under which every push event that is not watched is
    answered 200 with a body that holds its full name. *)
Definition unwatched_push_is_always_answered : Prop :=
  forall (py_repr : json -> string) (stdout : stdout_port) (cfg : config) (svc : service)
         (ks : list string) (d r t : gmap string json),
    push_event d r t ->
    py_in (field r "name") (WATCHED_IMAGES cfg) = false ->
    py_in (field r "repo_name") (WATCHED_IMAGES cfg) = false ->
    exists text : string,
      outcome (docker_webhook py_repr stdout cfg svc (Ok (JObj ks d))) = Ok (Text text, 200)
      /\ contains (shown py_repr (field r "repo_name")) text = true
      /\ posts (trace (docker_webhook py_repr stdout cfg svc (Ok (JObj ks d)))) = [].

(** [l] are the entries of the comma-separated list [s]: joined with commas
    they give [s], and none of them holds a comma. A list has at least one
    entry, the empty string the empty entry. *)
Definition entries_of (s : string) (l : list string) : Prop :=
  l <> [] /\ join "," l = s /\ Forall (fun entry => occurs "," entry = false) l.

(** [x] is [entry] without the whitespace around it. *)
Definition trim_of (entry x : string) : Prop :=
  trimmed x
  /\ exists pre post : string,
       entry = pre +:+ x +:+ post /\ spaces true pre /\ spaces true post.

(** [ws] are the entries [l], each without the whitespace around it, those
    that are whitespace only left out. *)
Inductive kept_trimmed : list string -> list string -> Prop :=
  | kept_nil : kept_trimmed [] []
  | kept_drop entry l ws :
      spaces true entry -> kept_trimmed l ws -> kept_trimmed (entry :: l) ws
  | kept_keep entry x l ws :
      x <> "" -> trim_of entry x -> kept_trimmed l ws ->
      kept_trimmed (entry :: l) (x :: ws).

(** WATCHED_IMAGES names no image: it is unset, or there is only whitespace
    between its commas (the empty string has one entry, the empty one). *)
Definition names_no_image (env : gmap string string) : Prop :=
  match env !! "WATCHED_IMAGES" with
  | None => True
  | Some s => exists l : list string, entries_of s l /\ Forall (spaces true) l
  end.

(** The two lines the module body prints once the configuration is
    accepted. *)
Definition banner (py_repr : json -> string) (cfg : config) : list effect :=
  [Print ("Gotify URL: " +:+ GOTIFY_URL cfg);
   Print ("Watching images: " +:+ py_repr (JArr (JStr <$> WATCHED_IMAGES cfg)))].


End Obs.

(** ** Proofs *)

Import Py Eff Config Receiver Spec Obs.

Section HandlerFacts.
Variable py_repr : json -> string.
Variable stdout : stdout_port.
Variable cfg : config.
Variable svc : service.
Variable ks : list string.

Lemma bind_lift_ok {A B} (a : A) (k : A -> M B) :
  Eff.bind (lift (Ok a)) k = k a.
Proof. unfold Eff.bind, lift. destruct (k a) as [tr r]. reflexivity. Qed.

Lemma bind_pure {A B} (a : A) (k : A -> M B) :
  Eff.bind ([], Ok a) k = k a.
Proof. apply bind_lift_ok. Qed.

Lemma action_push (d : gmap string json) :
  py_eq_str (default JNull (d !! "action")) "push" = true
  <-> d !! "action" = Some (JStr "push").
Proof.
  destruct (d !! "action") as [[]|]; simpl; split; try discriminate.
  - intros H. apply bool_decide_eq_true in H. by subst.
  - intros [= ->]. by apply bool_decide_eq_true.
Qed.

Lemma get2_object (d o : gmap string json) (outer inner : string) :
  sub_object d outer = Some o ->
  get2 (JObj ks d) outer inner = ([], Ok (field o inner)).
Proof.
  unfold sub_object, get2, field. simpl.
  destruct (d !! outer) as [[]|]; simpl; intros [= <-]; try reflexivity.
Qed.

Lemma get2_not_object (d : gmap string json) (outer inner : string) (v : json) :
  d !! outer = Some v -> is_dict v = false ->
  get2 (JObj ks d) outer inner = ([], Raise (no_attribute v "get")).
Proof.
  unfold get2. simpl. intros -> Hv. destruct v; try discriminate; reflexivity.
Qed.

Lemma extract_shaped (d r t : gmap string json) :
  sub_object d "repository" = Some r ->
  sub_object d "target" = Some t ->
  extract (JObj ks d) = ([], Ok (fields_of r t)).
Proof.
  intros Hr Ht. unfold extract.
  rewrite !(get2_object _ _ _ _ Hr), !(get2_object _ _ _ _ Ht).
  rewrite !bind_pure. reflexivity.
Qed.

Lemma extract_pure (data : json) : trace (extract data) = [].
Proof.
  unfold extract, get2.
  destruct data; try reflexivity. simpl.
  destruct (default (JObj [] ∅) (d !! "repository")); try reflexivity. simpl.
  destruct (default (JObj [] ∅) (d !! "target")); reflexivity.
Qed.

Lemma webhook_try_push (d : gmap string json) :
  d !! "action" = Some (JStr "push") ->
  webhook_try py_repr stdout cfg svc (Ok (JObj ks d))
  = Eff.bind (extract (JObj ks d)) (notify py_repr stdout cfg svc).
Proof.
  intros Ha. unfold webhook_try. rewrite bind_lift_ok. simpl py_get.
  rewrite bind_lift_ok. apply action_push in Ha. rewrite Ha. reflexivity.
Qed.

Lemma webhook_try_event (d r t : gmap string json) :
  push_event d r t ->
  webhook_try py_repr stdout cfg svc (Ok (JObj ks d))
  = notify py_repr stdout cfg svc (fields_of r t).
Proof.
  intros (Ha & Hr & Ht). rewrite (webhook_try_push _ Ha).
  rewrite (extract_shaped _ _ _ Hr Ht).
  unfold Eff.bind. destruct (notify _ _ _ _ _) as [tr res]. reflexivity.
Qed.

Lemma not_watched_spec (r t : gmap string json) :
  not_watched cfg (fields_of r t) = negb (watched cfg r).
Proof. unfold not_watched, watched. simpl. by rewrite negb_orb. Qed.
End HandlerFacts.

(** *** Occurrence of a string in another *)

Lemma prefix_app (x y : string) : String.prefix x (x +:+ y) = true.
Proof.
  induction x as [|c x IH]; simpl.
  - by destruct y.
  - destruct (ascii_dec c c); [exact IH | congruence].
Qed.

Lemma contains_unfold (x s : string) :
  contains x s
  = String.prefix x s || match s with "" => false | String _ s' => contains x s' end.
Proof. destruct s; reflexivity. Qed.

Lemma contains_prefix (x y : string) : contains x (x +:+ y) = true.
Proof. rewrite contains_unfold, prefix_app. reflexivity. Qed.

Lemma contains_app (pre x s : string) :
  contains x s = true -> contains x (pre +:+ s) = true.
Proof.
  intros H. induction pre as [|c pre IH]; [exact H |].
  change (String c pre +:+ s) with (String c (pre +:+ s)).
  rewrite contains_unfold, IH. apply orb_true_r.
Qed.

(** *** The webhook handler on push events *)

Lemma fmt_shown py_repr (v : json) : fmt py_repr v = shown py_repr v.
Proof. by destruct v. Qed.

(** The ways [notify] ends. *)
Lemma notify_eq py_repr stdout cfg svc (f : fields) :
  notify py_repr stdout cfg svc f
  = if not_watched cfg f then
      match stdout ("Image " +:+ fmt py_repr (repo_full_name f) +:+ " not in watch list") with
      | Ok _ =>
          ([Print ("Image " +:+ fmt py_repr (repo_full_name f) +:+ " not in watch list")],
           Ok (Text ("Image " +:+ fmt py_repr (repo_full_name f) +:+ " not in watch list"),
               200))
      | Raise e => ([], Raise e)
      end
    else
      match svc (gotify_request py_repr cfg f) with
      | Raise e => ([HttpPost (gotify_request py_repr cfg f)], Raise e)
      | Ok resp =>
          if status_code resp =? 200 then
            match stdout ("Notification sent for " +:+ fmt py_repr (repo_full_name f)
                            +:+ ":" +:+ fmt py_repr (tag f)) with
            | Ok _ =>
                ([HttpPost (gotify_request py_repr cfg f);
                  Print ("Notification sent for " +:+ fmt py_repr (repo_full_name f)
                           +:+ ":" +:+ fmt py_repr (tag f))],
                 Ok (Text "Notification sent", 200))
            | Raise e => ([HttpPost (gotify_request py_repr cfg f)], Raise e)
            end
          else
            ([HttpPost (gotify_request py_repr cfg f);
              Print ("Failed to send notification: " +:+ pretty (status_code resp)
                       +:+ " - " +:+ text resp)],
             Ok (Text "Failed to send notification", 500))
      end.
Proof.
  unfold notify, print_to.
  destruct (not_watched cfg f); [destruct (stdout _); reflexivity |].
  unfold http_post, Eff.bind.
  destruct (svc (gotify_request py_repr cfg f)) as [resp | e]; [| reflexivity].
  destruct (status_code resp =? 200); [| reflexivity].
  destruct (stdout _); reflexivity.
Qed.

(** [notify] on the fields of a shaped event, in the words of the
    specification. *)
Lemma notify_event py_repr stdout cfg svc (r t : gmap string json) :
  notify py_repr stdout cfg svc (fields_of r t)
  = if watched cfg r then
      match svc (gotify_request py_repr cfg (fields_of r t)) with
      | Raise e => ([HttpPost (gotify_request py_repr cfg (fields_of r t))], Raise e)
      | Ok resp =>
          if status_code resp =? 200 then
            match stdout (sent_line py_repr r t) with
            | Ok _ =>
                ([HttpPost (gotify_request py_repr cfg (fields_of r t));
                  Print (sent_line py_repr r t)],
                 Ok (Text "Notification sent", 200))
            | Raise e => ([HttpPost (gotify_request py_repr cfg (fields_of r t))], Raise e)
            end
          else
            ([HttpPost (gotify_request py_repr cfg (fields_of r t));
              Print ("Failed to send notification: " +:+ pretty (status_code resp)
                       +:+ " - " +:+ text resp)],
             Ok (Text "Failed to send notification", 500))
      end
    else
      match stdout (skipped_line py_repr r) with
      | Ok _ => ([Print (skipped_line py_repr r)], Ok (Text (skipped_line py_repr r), 200))
      | Raise e => ([], Raise e)
      end.
Proof.
  rewrite notify_eq, not_watched_spec. unfold sent_line, skipped_line.
  simpl repo_full_name. simpl tag. rewrite !fmt_shown.
  destruct (watched cfg r); reflexivity.
Qed.

Lemma gotify_request_eq py_repr cfg (r t : gmap string json) :
  gotify_request py_repr cfg (fields_of r t)
  = {| post_url := GOTIFY_URL cfg +:+ "/message";
       post_params := {[ "token" := GOTIFY_TOKEN cfg ]};
       post_json :=
         JObj ["title"; "message"; "priority"]
              {[ "title" := JStr "🐳 New Docker Tag Released";
                 "message" :=
                   JStr (three_lines (shown py_repr (field r "repo_name"))
                           (shown py_repr (field t "tag"))
                           (shown py_repr (field t "date")));
                 "priority" := JInt 5 ]} |}.
Proof.
  unfold gotify_request, gotify_payload, message_of, three_lines. simpl.
  rewrite !fmt_shown. reflexivity.
Qed.

(** C3. An event whose action is not "push" is answered 200 "Not a push
    event", and nothing is sent to the notification service. *)
Theorem non_push_is_ignored
    (py_repr : json -> string) (stdout : stdout_port) (cfg : config) (svc : service)
    (ks : list string) (d : gmap string json) :
  d !! "action" <> Some (JStr "push") ->
  outcome (docker_webhook py_repr stdout cfg svc (Ok (JObj ks d)))
  = Ok (Text "Not a push event", 200)
  /\ posts (trace (docker_webhook py_repr stdout cfg svc (Ok (JObj ks d)))) = [].
Proof.
  intros Hne.
  assert (Hb : py_eq_str (default JNull (d !! "action")) "push" = false).
  { destruct (py_eq_str _ _) eqn:E; [| reflexivity].
    apply action_push in E. contradiction. }
  unfold docker_webhook, webhook_try. rewrite bind_lift_ok. simpl py_get.
  rewrite bind_lift_ok, Hb. split; reflexivity.
Qed.

Lemma non_push_is_ignored_witness :
  outcome (docker_webhook atom_repr utf8_stdout Examples.cfg (Examples.answering 200)
             (Ok (JObj Examples.delete_keys Examples.delete_event)))
  = Ok (Text "Not a push event", 200)
  /\ posts (trace (docker_webhook atom_repr utf8_stdout Examples.cfg (Examples.answering 200)
                     (Ok (JObj Examples.delete_keys Examples.delete_event)))) = [].
Proof.
  apply (non_push_is_ignored atom_repr utf8_stdout Examples.cfg (Examples.answering 200)
           Examples.delete_keys Examples.delete_event).
  vm_compute. discriminate.
Defined.

(** C4, as the code has it. A push event whose image is on the watch list
    neither by its short name nor by its full name, and for which the line
    "Image {full name} not in watch list" can be written to standard output,
    is answered 200 with that line as body, which contains the full name,
    and nothing is sent to the notification service. *)
Theorem unwatched_push_is_skipped
    (py_repr : json -> string) (stdout : stdout_port) (cfg : config) (svc : service)
    (ks : list string) (d r t : gmap string json) :
  push_event d r t ->
  py_in (field r "name") (WATCHED_IMAGES cfg) = false ->
  py_in (field r "repo_name") (WATCHED_IMAGES cfg) = false ->
  stdout ("Image " +:+ shown py_repr (field r "repo_name") +:+ " not in watch list")
  = Ok tt ->
  outcome (docker_webhook py_repr stdout cfg svc (Ok (JObj ks d)))
  = Ok (Text ("Image " +:+ shown py_repr (field r "repo_name") +:+ " not in watch list"),
        200)
  /\ contains (shown py_repr (field r "repo_name"))
       ("Image " +:+ shown py_repr (field r "repo_name") +:+ " not in watch list")
     = true
  /\ posts (trace (docker_webhook py_repr stdout cfg svc (Ok (JObj ks d)))) = [].
Proof.
  intros Hev Hn Hf Hout.
  assert (Hw : watched cfg r = false) by (unfold watched; by rewrite Hn, Hf).
  unfold docker_webhook. rewrite (webhook_try_event _ _ _ _ _ _ _ _ Hev).
  rewrite notify_event, Hw. unfold skipped_line. rewrite Hout.
  repeat split. apply contains_app, contains_prefix.
Qed.

Lemma unwatched_push_is_skipped_witness :
  outcome (docker_webhook atom_repr utf8_stdout Examples.cfg (Examples.answering 200)
             (Ok (JObj Examples.event_keys Examples.other_event)))
  = Ok (Text ("Image " +:+ shown atom_repr (field Examples.other_repository "repo_name")
                +:+ " not in watch list"), 200)
  /\ contains (shown atom_repr (field Examples.other_repository "repo_name"))
       ("Image " +:+ shown atom_repr (field Examples.other_repository "repo_name")
          +:+ " not in watch list")
     = true
  /\ posts (trace (docker_webhook atom_repr utf8_stdout Examples.cfg (Examples.answering 200)
                    (Ok (JObj Examples.event_keys Examples.other_event)))) = [].
Proof.
  apply (unwatched_push_is_skipped atom_repr utf8_stdout Examples.cfg (Examples.answering 200)
           Examples.event_keys Examples.other_event Examples.other_repository
           Examples.target).
  - repeat split; vm_compute; reflexivity.
  - vm_compute. reflexivity.
  - vm_compute. reflexivity.
  - vm_compute. reflexivity.
Defined.

(** C4, as stated, fails: a push event that is not watched and whose full
    name holds a lone surrogate (the JSON escape \ud800) is answered 500
    "Error processing webhook", because the print of line 41 raises. *)
Lemma unwatched_push_is_not_always_answered : ~ unwatched_push_is_always_answered.
Proof.
  intros H.
  destruct (H atom_repr utf8_stdout Examples.cfg (Examples.answering 200)
              Examples.event_keys Examples.odd_name_event Examples.odd_name_repository
              Examples.target) as (text & Ho & _).
  - repeat split; vm_compute; reflexivity.
  - vm_compute. reflexivity.
  - vm_compute. reflexivity.
  - vm_compute in Ho. discriminate Ho.
Qed.

(** C1, as the code has it. For a push event whose image is on the watch
    list, the handler makes exactly one POST, to GOTIFY_URL/message with the
    token as query parameter and the JSON body {title, message, priority},
    priority 5 and message the three lines "**Image:** full name", "**Tag:**
    tag", "**Pushed:** timestamp"; when the call is answered with status 200
    and the line "Notification sent for {full name}:{tag}" can be written to
    standard output, it answers 200 "Notification sent". *)
Theorem watched_push_notifies
    (py_repr : json -> string) (stdout : stdout_port) (cfg : config) (svc : service)
    (ks : list string) (d r t : gmap string json)
    (req : post_request) (resp : post_response) :
  push_event d r t ->
  watched cfg r = true ->
  req = {| post_url := GOTIFY_URL cfg +:+ "/message";
           post_params := {[ "token" := GOTIFY_TOKEN cfg ]};
           post_json :=
             JObj ["title"; "message"; "priority"]
                  {[ "title" := JStr "🐳 New Docker Tag Released";
                     "message" :=
                       JStr ("**Image:** " +:+ shown py_repr (field r "repo_name")
                             +:+ String "010" ("**Tag:** "
                             +:+ shown py_repr (field t "tag")
                             +:+ String "010" ("**Pushed:** "
                             +:+ shown py_repr (field t "date"))));
                     "priority" := JInt 5 ]} |} ->
  svc req = Ok resp ->
  status_code resp = 200 ->
  stdout ("Notification sent for " +:+ shown py_repr (field r "repo_name")
            +:+ ":" +:+ shown py_repr (field t "tag")) = Ok tt ->
  posts (trace (docker_webhook py_repr stdout cfg svc (Ok (JObj ks d)))) = [req]
  /\ outcome (docker_webhook py_repr stdout cfg svc (Ok (JObj ks d)))
     = Ok (Text "Notification sent", 200).
Proof.
  intros Hev Hw -> Hsvc Hcode Hout.
  fold (three_lines (shown py_repr (field r "repo_name")) (shown py_repr (field t "tag"))
          (shown py_repr (field t "date"))) in *.
  rewrite <- gotify_request_eq in *.
  unfold docker_webhook. rewrite (webhook_try_event _ _ _ _ _ _ _ _ Hev).
  rewrite notify_event, Hw, Hsvc, Hcode. simpl Z.eqb. cbv iota.
  unfold sent_line. rewrite Hout. split; reflexivity.
Qed.

Lemma watched_push_notifies_witness :
  posts (trace (docker_webhook atom_repr utf8_stdout Examples.cfg (Examples.answering 200)
                  (Ok (JObj Examples.event_keys Examples.push_event))))
  = [Examples.push_request]
  /\ outcome (docker_webhook atom_repr utf8_stdout Examples.cfg (Examples.answering 200)
                (Ok (JObj Examples.event_keys Examples.push_event)))
     = Ok (Text "Notification sent", 200).
Proof.
  apply (watched_push_notifies atom_repr utf8_stdout Examples.cfg (Examples.answering 200)
           Examples.event_keys Examples.push_event Examples.repository Examples.target
           Examples.push_request (mk_response 200 "{}")).
  - repeat split; vm_compute; reflexivity.
  - vm_compute. reflexivity.
  - vm_compute. reflexivity.
  - reflexivity.
  - reflexivity.
  - vm_compute. reflexivity.
Defined.

(** C1, as stated, fails, whichever statuses count as a success of the
    downstream call. If every status from 200 to 299 does: to a watched push
    event for which the service answers 201 the handler answers 500 "Failed
    to send notification". If only 200 does: to a watched push event whose
    tag holds a lone surrogate (the JSON escape \ud800) and for which the
    service answers 200, the handler answers 500 "Error processing webhook",
    because the print of line 62 raises. *)
Lemma watched_push_is_not_always_notified :
  ~ watched_push_is_always_notified success_status
  /\ ~ watched_push_is_always_notified (fun code => code =? 200).
Proof.
  split; intros H.
  - destruct (H atom_repr utf8_stdout Examples.cfg (Examples.answering 201)
                Examples.event_keys Examples.push_event Examples.repository
                Examples.target (mk_response 201 "{}")) as [_ Ho].
    + repeat split; vm_compute; reflexivity.
    + vm_compute. reflexivity.
    + reflexivity.
    + reflexivity.
    + vm_compute in Ho. discriminate Ho.
  - destruct (H atom_repr utf8_stdout Examples.cfg (Examples.answering 200)
                Examples.event_keys Examples.odd_tag_event Examples.repository
                Examples.odd_tag_target (mk_response 200 "{}")) as [_ Ho].
    + repeat split; vm_compute; reflexivity.
    + vm_compute. reflexivity.
    + reflexivity.
    + reflexivity.
    + vm_compute in Ho. discriminate Ho.
Qed.




(** *** The error boundary *)

Lemma docker_webhook_outcome py_repr stdout cfg svc (rj : result json) :
  outcome (docker_webhook py_repr stdout cfg svc rj)
  = match outcome (webhook_try py_repr stdout cfg svc rj) with
    | Ok resp => Ok resp
    | Raise _ => Ok error_response
    end.
Proof.
  unfold docker_webhook, catch.
  destruct (webhook_try py_repr stdout cfg svc rj) as [tr [resp | e]]; reflexivity.
Qed.

Lemma docker_webhook_posts py_repr stdout cfg svc (rj : result json) :
  posts (trace (docker_webhook py_repr stdout cfg svc rj))
  = posts (trace (webhook_try py_repr stdout cfg svc rj)).
Proof.
  unfold docker_webhook, catch, webhook_except.
  destruct (webhook_try py_repr stdout cfg svc rj) as [tr [resp | e]]; simpl; [reflexivity |].
  unfold posts. rewrite omap_app. simpl. apply app_nil_r.
Qed.

Lemma docker_webhook_returns py_repr stdout cfg svc (rj : result json) :
  exists resp : response, outcome (docker_webhook py_repr stdout cfg svc rj) = Ok resp.
Proof.
  rewrite docker_webhook_outcome.
  destruct (outcome (webhook_try py_repr stdout cfg svc rj)); eauto.
Qed.

(** C5. Whatever the request body, the handler returns a response: an
    exception raised anywhere in it, the one for a body that does not
    decode included, is answered 500 "Error processing webhook" and never
    leaves the view function, so no request takes the server down. *)
Theorem handler_isolates_errors
    (py_repr : json -> string) (stdout : stdout_port) (cfg : config) (svc : service)
    (rj : result json) :
  (exists resp : response, outcome (docker_webhook py_repr stdout cfg svc rj) = Ok resp)
  /\ outcome (docker_webhook py_repr stdout cfg svc rj)
     = match outcome (webhook_try py_repr stdout cfg svc rj) with
       | Ok resp => Ok resp
       | Raise _ => Ok (Text "Error processing webhook", 500)
       end
  /\ (forall e : exn,
        docker_webhook py_repr stdout cfg svc (Raise e)
        = ([Print ("Error processing webhook: " +:+ exn_msg e)],
           Ok (Text "Error processing webhook", 500)))
  /\ (forall (st : server) (a : arrival),
        exists resp : response, snd (step py_repr stdout st a) = Ok resp).
Proof.
  split; [apply docker_webhook_returns |].
  split; [apply docker_webhook_outcome |].
  split; [reflexivity |].
  intros st [[rj' |] svc']; unfold step, dispatch; simpl.
  - destruct (docker_webhook_returns py_repr stdout (globals st) svc' rj') as [resp H].
    destruct (docker_webhook _ _ _ _ _) as [tr res]. simpl in *. eauto.
  - eauto.
Qed.

(** *** Extraction of the four fields *)

Lemma absent_field (d o : gmap string json) (outer inner : string) :
  sub_object d outer = Some o -> absent d outer inner ->
  field o inner = JStr "Unknown".
Proof.
  unfold sub_object, absent, field.
  destruct (d !! outer) as [[]|]; intros [= <-]; try (intros ->); try reflexivity.
Qed.

(** C6. For a push event given as a JSON object, each of the four fields
    that is absent is extracted as "Unknown"; absence never makes the
    handler fail: it goes on to the filter step with these values. *)
Theorem absent_fields_default_to_unknown
    (py_repr : json -> string) (stdout : stdout_port) (cfg : config) (svc : service)
    (ks : list string) (d r t : gmap string json) :
  push_event d r t ->
  exists f : fields,
    extract (JObj ks d) = ([], Ok f)
    /\ (absent d "repository" "name" -> repo_name f = JStr "Unknown")
    /\ (absent d "repository" "repo_name" -> repo_full_name f = JStr "Unknown")
    /\ (absent d "target" "tag" -> tag f = JStr "Unknown")
    /\ (absent d "target" "date" -> pushed_at f = JStr "Unknown")
    /\ docker_webhook py_repr stdout cfg svc (Ok (JObj ks d))
       = catch (notify py_repr stdout cfg svc f) webhook_except.
Proof.
  intros Hev. exists (fields_of r t).
  pose proof Hev as (Ha & Hr & Ht).
  split; [apply (extract_shaped _ _ _ _ Hr Ht) |].
  repeat split; simpl; try (intros Habs).
  - apply (absent_field _ _ _ _ Hr Habs).
  - apply (absent_field _ _ _ _ Hr Habs).
  - apply (absent_field _ _ _ _ Ht Habs).
  - apply (absent_field _ _ _ _ Ht Habs).
  - unfold docker_webhook. rewrite (webhook_try_event _ _ _ _ _ _ _ _ Hev). reflexivity.
Qed.

Lemma absent_fields_default_to_unknown_witness :
  exists f : fields,
    extract (JObj Examples.bare_keys Examples.bare_event) = ([], Ok f)
    /\ (absent Examples.bare_event "repository" "name" -> repo_name f = JStr "Unknown")
    /\ (absent Examples.bare_event "repository" "repo_name"
        -> repo_full_name f = JStr "Unknown")
    /\ (absent Examples.bare_event "target" "tag" -> tag f = JStr "Unknown")
    /\ (absent Examples.bare_event "target" "date" -> pushed_at f = JStr "Unknown")
    /\ docker_webhook atom_repr utf8_stdout Examples.cfg Examples.unreachable
         (Ok (JObj Examples.bare_keys Examples.bare_event))
       = catch (notify atom_repr utf8_stdout Examples.cfg Examples.unreachable f) webhook_except.
Proof.
  apply (absent_fields_default_to_unknown atom_repr utf8_stdout Examples.cfg Examples.unreachable
           Examples.bare_keys Examples.bare_event ∅ ∅).
  repeat split; vm_compute; reflexivity.
Defined.

Lemma extract_not_object_repository (ks : list string) (d : gmap string json) (v : json) :
  d !! "repository" = Some v -> is_dict v = false ->
  extract (JObj ks d) = ([], Raise (no_attribute v "get")).
Proof.
  intros Hv Hd. unfold extract.
  rewrite (get2_not_object _ _ _ _ _ Hv Hd). reflexivity.
Qed.

Lemma extract_not_object_target (ks : list string) (d r : gmap string json) (v : json) :
  sub_object d "repository" = Some r ->
  d !! "target" = Some v -> is_dict v = false ->
  extract (JObj ks d) = ([], Raise (no_attribute v "get")).
Proof.
  intros Hr Hv Hd. unfold extract.
  rewrite !(get2_object _ _ _ _ _ Hr), !bind_pure.
  rewrite (get2_not_object _ _ _ _ _ Hv Hd). reflexivity.
Qed.

Lemma sub_object_cases (d : gmap string json) (key : string) :
  (exists o, sub_object d key = Some o)
  \/ (exists v, d !! key = Some v /\ is_dict v = false).
Proof.
  unfold sub_object. destruct (d !! key) as [[]|]; eauto.
Qed.

(** A push event one of whose two objects is not an object raises while
    the fields are extracted. *)
Lemma extract_raises (ks : list string) (d : gmap string json) (v : json) :
  d !! "repository" = Some v \/ d !! "target" = Some v ->
  is_dict v = false ->
  exists e : exn, extract (JObj ks d) = ([], Raise e).
Proof.
  intros Hv Hd.
  destruct (sub_object_cases d "repository") as [[r Hr] | (w & Hw & Hwd)].
  - destruct Hv as [Hv | Hv].
    + unfold sub_object in Hr. rewrite Hv in Hr. destruct v; discriminate.
    + eexists. apply (extract_not_object_target _ _ _ _ Hr Hv Hd).
  - eexists. apply (extract_not_object_repository _ _ _ Hw Hwd).
Qed.

Lemma extract_ok_shaped (ks : list string) (d : gmap string json) (f : fields) :
  outcome (extract (JObj ks d)) = Ok f ->
  exists r t, sub_object d "repository" = Some r
              /\ sub_object d "target" = Some t
              /\ f = fields_of r t.
Proof.
  intros Hf.
  destruct (sub_object_cases d "repository") as [[r Hr] | (w & Hw & Hwd)].
  - destruct (sub_object_cases d "target") as [[t Ht] | (w & Hw & Hwd)].
    + exists r, t. rewrite (extract_shaped _ _ _ _ Hr Ht) in Hf.
      simpl in Hf. injection Hf as <-. auto.
    + rewrite (extract_not_object_target _ _ _ _ Hr Hw Hwd) in Hf. discriminate.
  - rewrite (extract_not_object_repository _ _ _ Hw Hwd) in Hf. discriminate.
Qed.

Lemma field_as_stored (d o : gmap string json) (outer inner : string) :
  sub_object d outer = Some o -> as_stored d outer inner (field o inner).
Proof.
  unfold sub_object, as_stored, stored, field.
  destruct (d !! outer) as [[]|]; intros ?; simplify_eq; try reflexivity.
  by destruct (o !! inner).
Qed.

(** C10. A push event whose "repository" or "target" is present but is
    null or any other non-object is answered 500 "Error processing webhook";
    "Unknown" is used only for a field that is absent: whenever the fields
    are extracted, a field the event stores is extracted as stored. *)
Theorem non_object_field_is_an_error
    (py_repr : json -> string) (stdout : stdout_port) (cfg : config) (svc : service)
    (ks : list string) (d : gmap string json) :
  d !! "action" = Some (JStr "push") ->
  (forall v : json,
     d !! "repository" = Some v \/ d !! "target" = Some v ->
     is_dict v = false ->
     outcome (docker_webhook py_repr stdout cfg svc (Ok (JObj ks d)))
     = Ok (Text "Error processing webhook", 500)
     /\ posts (trace (docker_webhook py_repr stdout cfg svc (Ok (JObj ks d)))) = [])
  /\ (forall f : fields,
        outcome (extract (JObj ks d)) = Ok f ->
        as_stored d "repository" "name" (repo_name f)
        /\ as_stored d "repository" "repo_name" (repo_full_name f)
        /\ as_stored d "target" "tag" (tag f)
        /\ as_stored d "target" "date" (pushed_at f)).
Proof.
  intros Ha. split.
  - intros v Hv Hd.
    destruct (extract_raises ks d v Hv Hd) as [e He].
    unfold docker_webhook. rewrite (webhook_try_push _ _ _ _ _ _ Ha), He.
    split; reflexivity.
  - intros f Hf.
    destruct (extract_ok_shaped ks d f Hf) as (r & t & Hr & Ht & ->). simpl.
    repeat split; by apply field_as_stored.
Qed.

Lemma non_object_field_is_an_error_witness :
  outcome (docker_webhook atom_repr utf8_stdout Examples.cfg (Examples.answering 200)
             (Ok (JObj Examples.event_keys Examples.null_target_event)))
  = Ok (Text "Error processing webhook", 500)
  /\ posts (trace (docker_webhook atom_repr utf8_stdout Examples.cfg (Examples.answering 200)
                    (Ok (JObj Examples.event_keys Examples.null_target_event)))) = [].
Proof.
  apply (proj1 (non_object_field_is_an_error atom_repr utf8_stdout Examples.cfg
                  (Examples.answering 200) Examples.event_keys
                  Examples.null_target_event eq_refl) JNull).
  - right. vm_compute. reflexivity.
  - reflexivity.
Defined.

(** *** One attempt at most *)

Lemma notify_posts py_repr stdout cfg svc (f : fields) :
  posts (trace (notify py_repr stdout cfg svc f))
  = if not_watched cfg f then [] else [gotify_request py_repr cfg f].
Proof.
  rewrite notify_eq.
  destruct (not_watched cfg f); [destruct (stdout _); reflexivity |].
  destruct (svc (gotify_request py_repr cfg f)) as [resp | e]; [| reflexivity].
  destruct (status_code resp =? 200); [| reflexivity].
  destruct (stdout _); reflexivity.
Qed.

Lemma bind_pure_trace {A B} (m : M A) (k : A -> M B) :
  trace m = [] ->
  trace (Eff.bind m k) = match outcome m with Ok a => trace (k a) | Raise _ => [] end.
Proof.
  destruct m as [tr [a | e]]; simpl; intros ->; [| reflexivity].
  destruct (k a); reflexivity.
Qed.

Lemma webhook_try_posts py_repr stdout cfg svc (rj : result json) :
  (length (posts (trace (webhook_try py_repr stdout cfg svc rj))) <= 1)%nat.
Proof.
  unfold webhook_try.
  destruct rj as [data | e]; [| simpl; lia].
  rewrite bind_lift_ok.
  destruct (py_get data "action" JNull) as [action | e]; [| simpl; lia].
  rewrite bind_lift_ok.
  destruct (negb (py_eq_str action "push")); [simpl; lia |].
  rewrite bind_pure_trace by apply extract_pure.
  destruct (outcome (extract data)) as [f | e]; [| simpl; lia].
  rewrite notify_posts. destruct (not_watched cfg f); simpl; lia.
Qed.

(** C7. The handler attempts at most one outbound call for an inbound
    event: none when the event is filtered out (its action is not "push", or
    its image is not on the watch list), exactly one otherwise; nothing is
    retried. *)
Theorem at_most_one_outbound_attempt
    (py_repr : json -> string) (stdout : stdout_port) (cfg : config) (svc : service)
    (rj : result json) :
  (length (posts (trace (docker_webhook py_repr stdout cfg svc rj))) <= 1)%nat
  /\ (forall (ks : list string) (d : gmap string json),
        rj = Ok (JObj ks d) -> d !! "action" <> Some (JStr "push") ->
        posts (trace (docker_webhook py_repr stdout cfg svc rj)) = [])
  /\ (forall (ks : list string) (d r t : gmap string json),
        rj = Ok (JObj ks d) -> push_event d r t ->
        posts (trace (docker_webhook py_repr stdout cfg svc rj))
        = if watched cfg r then [gotify_request py_repr cfg (fields_of r t)] else []).
Proof.
  split; [| split].
  - rewrite docker_webhook_posts. apply webhook_try_posts.
  - intros ks d -> Hne.
    unfold docker_webhook, webhook_try. rewrite bind_lift_ok. simpl py_get.
    rewrite bind_lift_ok.
    destruct (py_eq_str _ _) eqn:E; [| reflexivity].
    apply action_push in E. contradiction.
  - intros ks d r t -> Hev. rewrite docker_webhook_posts.
    rewrite (webhook_try_event _ _ _ _ _ _ _ _ Hev), notify_posts, not_watched_spec.
    destruct (watched cfg r); reflexivity.
Qed.

(** *** The health route and the server *)

Lemma step_globals py_repr stdout (st : server) (a : arrival) :
  globals (fst (step py_repr stdout st a)) = globals st.
Proof. unfold step. destruct (dispatch py_repr stdout (globals st) a). reflexivity. Qed.

(** No request changes the configuration. *)
Lemma serve_globals py_repr stdout (l : list arrival) (st : server) :
  globals (fst (serve py_repr stdout st l)) = globals st.
Proof.
  revert st. induction l as [|a l IH]; intros st; [reflexivity |].
  simpl. pose proof (step_globals py_repr stdout st a) as Hs.
  destruct (step py_repr stdout st a) as [st1 r1]. simpl in Hs.
  specialize (IH st1). destruct (serve py_repr stdout st1 l) as [st2 rs].
  simpl in *. congruence.
Qed.

(** C9. Whatever requests came before, GET /health answers 200 with the
    JSON body {status: "running", gotify_url, watched_images} of the
    configuration the process started with; it cannot fail, and it leaves
    the state of the server as it was. *)
Theorem health_reports_configuration
    (py_repr : json -> string) (stdout : stdout_port) (cfg : config)
    (printed : list effect) (before : list arrival) (svc : service) :
  let st := fst (serve py_repr stdout (mk_server cfg printed) before) in
  step py_repr stdout st (mk_arrival GET_health svc)
  = (st, Ok (Jsonify (JObj ["status"; "gotify_url"; "watched_images"]
                           {[ "status" := JStr "running";
                              "gotify_url" := JStr (GOTIFY_URL cfg);
                              "watched_images" := JArr (JStr <$> WATCHED_IMAGES cfg) ]}),
             200)).
Proof.
  intros st.
  assert (Hg : globals st = cfg) by apply serve_globals.
  unfold step, dispatch, health_check, ret. simpl. rewrite Hg.
  destruct st as [g h]. simpl in *. subst g. rewrite app_nil_r. reflexivity.
Qed.

(** *** Start-up *)

Lemma split_not_nil (sep : ascii) (s : string) : split sep s <> [].
Proof.
  induction s as [|c s IH]; simpl; [discriminate |].
  destruct (Ascii.eqb c sep); [discriminate |].
  destruct (split sep s); [contradiction | discriminate].
Qed.

Lemma truthy_str_false (s : string) : truthy_str s = false <-> s = "".
Proof. destruct s; simpl; split; congruence. Qed.

Lemma watched_of_nil (s : string) :
  watched_of s = [] <-> Forall (fun entry => strip entry = "") (split "," s).
Proof.
  unfold watched_of.
  induction (split "," s) as [|e l IH]; simpl.
  - split; [constructor | reflexivity].
  - destruct (truthy_str (strip e)) eqn:E; simpl.
    + split; [discriminate |].
      intros H. inversion H as [|? ? He _]; subst.
      apply truthy_str_false in He. congruence.
    + rewrite IH. apply truthy_str_false in E.
      split; [by constructor | by inversion 1].
Qed.

Lemma no_images_spec (env : gmap string string) :
  no_images env <-> watched_of (getenv_or env "WATCHED_IMAGES" "") = [].
Proof.
  unfold no_images, getenv_or.
  destruct (env !! "WATCHED_IMAGES") as [s|]; simpl.
  - symmetry. apply watched_of_nil.
  - split; [reflexivity | trivial].
Qed.

Lemma no_token_spec (env : gmap string string) :
  no_token env <-> truthy_opt (getenv env "GOTIFY_TOKEN") = false.
Proof.
  unfold no_token, getenv.
  destruct (env !! "GOTIFY_TOKEN") as [[|c s]|]; simpl; split; auto;
    try discriminate; intros [H | H]; discriminate.
Qed.

(** *** What [split] and [strip] compute *)

Lemma join_cons (sep x y : string) (l : list string) :
  join sep (x :: y :: l) = x +:+ sep +:+ join sep (y :: l).
Proof. reflexivity. Qed.

(** Joining the entries with the separator gives the string back, and no
    entry holds the separator. *)
Lemma split_join (sep : ascii) (s : string) :
  join (String sep "") (split sep s) = s
  /\ Forall (fun entry => occurs sep entry = false) (split sep s).
Proof.
  induction s as [|c s [IHj IHf]]; [split; [reflexivity | by repeat constructor] |].
  simpl split. destruct (Ascii.eqb c sep) eqn:E.
  - apply Ascii.eqb_eq in E. subst c.
    pose proof (split_not_nil sep s) as Hne.
    destruct (split sep s) as [|w ws]; [contradiction |].
    rewrite join_cons, IHj. split; [reflexivity | by constructor].
  - pose proof (split_not_nil sep s) as Hne.
    destruct (split sep s) as [|w ws]; [contradiction |].
    apply Forall_cons in IHf as [Hw Hws]. split.
    + rewrite <- IHj. by destruct ws.
    + constructor; [simpl; by rewrite E | exact Hws].
Qed.

Lemma string_ind_3 (P : string -> Prop) :
  P "" ->
  (forall c s,
      P s ->
      (forall c2 s2, s = String c2 s2 -> P s2) ->
      (forall c2 c3 s3, s = String c2 (String c3 s3) -> P s3) ->
      P (String c s)) ->
  forall s, P s.
Proof.
  intros H0 Hstep s.
  cut (P s /\ (forall c2 s2, s = String c2 s2 -> P s2)
       /\ (forall c2 c3 s3, s = String c2 (String c3 s3) -> P s3)); [tauto |].
  induction s as [|c s (IH1 & IH2 & IH3)].
  - repeat split; [exact H0 | discriminate | discriminate].
  - repeat split.
    + by apply Hstep.
    + by intros c2 s2 [= _ <-].
    + intros c2 c3 s3 [= _ ->]. by eapply IH2.
Qed.

(** What [strip_front] removes is a run of whitespace characters. *)
Lemma strip_front_cut (fwd : bool) (s : string) :
  exists pre : string, s = pre +:+ strip_front fwd s /\ spaces fwd pre.
Proof.
  induction s as [|c1 r1 IH1 IH2 IH3] using string_ind_3.
  - exists "". split; [reflexivity | constructor].
  - simpl. destruct (space1 c1) eqn:E1.
    { destruct IH1 as (pre & Hpre & Hsp). exists (String c1 pre).
      split; [exact (f_equal (String c1) Hpre) | by constructor]. }
    destruct r1 as [|c2 r2]; [exists ""; split; [reflexivity | constructor] |].
    destruct (space2_at fwd c1 c2) eqn:E2.
    { destruct (IH2 _ _ eq_refl) as (pre & Hpre & Hsp).
      exists (String c1 (String c2 pre)).
      split; [exact (f_equal (fun x => String c1 (String c2 x)) Hpre) | by constructor]. }
    destruct r2 as [|c3 r3]; [exists ""; split; [reflexivity | constructor] |].
    destruct (space3_at fwd c1 c2 c3) eqn:E3.
    { destruct (IH3 _ _ _ eq_refl) as (pre & Hpre & Hsp).
      exists (String c1 (String c2 (String c3 pre))).
      split; [exact (f_equal (fun x => String c1 (String c2 (String c3 x))) Hpre)
             | by constructor]. }
    exists "". split; [reflexivity | constructor].
Qed.

(** What [strip_front] leaves does not begin with a whitespace character. *)
Lemma strip_front_stops (fwd : bool) (s : string) :
  space_at_front fwd (strip_front fwd s) = false.
Proof.
  induction s as [|c1 r1 IH1 IH2 IH3] using string_ind_3; [reflexivity |].
  simpl. destruct (space1 c1) eqn:E1; [exact IH1 |].
  destruct r1 as [|c2 r2]; [simpl; by rewrite E1 |].
  destruct (space2_at fwd c1 c2) eqn:E2; [by eapply IH2 |].
  destruct r2 as [|c3 r3]; [simpl; by rewrite E1, E2 |].
  destruct (space3_at fwd c1 c2 c3) eqn:E3; [by eapply IH3 |].
  simpl. by rewrite E1, E2, E3.
Qed.

Lemma app_assoc_str (a b c : string) : (a +:+ b) +:+ c = a +:+ (b +:+ c).
Proof.
  induction a as [|x a IH]; [reflexivity | exact (f_equal (String x) IH)].
Qed.

Lemma app_nil_r_str (a : string) : a +:+ "" = a.
Proof.
  induction a as [|x a IH]; [reflexivity | exact (f_equal (String x) IH)].
Qed.

Lemma rev_app_spec (s1 s2 : string) :
  String.rev_app s1 s2 = String.rev s1 +:+ s2.
Proof.
  revert s2. induction s1 as [|a s1 IH]; intros s2; [reflexivity |].
  change (String.rev_app s1 (String a s2) = String.rev_app s1 (String a "") +:+ s2).
  rewrite !IH, app_assoc_str. reflexivity.
Qed.

Lemma rev_cons (a : ascii) (s : string) :
  String.rev (String a s) = String.rev s +:+ String a "".
Proof. unfold String.rev at 1. simpl. apply rev_app_spec. Qed.

Lemma rev_app_distr (a b : string) :
  String.rev (a +:+ b) = String.rev b +:+ String.rev a.
Proof.
  induction a as [|x a IH]; simpl.
  - by rewrite app_nil_r_str.
  - change (String x a +:+ b) with (String x (a +:+ b)).
    by rewrite !rev_cons, IH, app_assoc_str.
Qed.

Lemma rev_involutive (s : string) : String.rev (String.rev s) = s.
Proof.
  induction s as [|x s IH]; [reflexivity |].
  by rewrite rev_cons, rev_app_distr, IH.
Qed.

Lemma spaces_app (fwd : bool) (a b : string) :
  spaces fwd a -> spaces fwd b -> spaces fwd (a +:+ b).
Proof.
  intros Ha Hb. induction Ha; simpl; [exact Hb | | |]; by constructor.
Qed.

(** A run of whitespace read back to front is one read front to back. *)
Lemma spaces_rev (p : string) : spaces false p -> spaces true (String.rev p).
Proof.
  induction 1 as [| c s Hc _ IH | c1 c2 s Hc _ IH | c1 c2 c3 s Hc _ IH].
  - constructor.
  - rewrite rev_cons. apply spaces_app; [exact IH |].
    apply spaces_1; [exact Hc | constructor].
  - rewrite !rev_cons, app_assoc_str. apply spaces_app; [exact IH |].
    apply spaces_2; [exact Hc | constructor].
  - rewrite !rev_cons, !app_assoc_str. apply spaces_app; [exact IH |].
    apply spaces_3; [exact Hc | constructor].
Qed.

Lemma space_at_front_prefix (p q : string) :
  space_at_front true (p +:+ q) = false -> space_at_front true p = false.
Proof.
  destruct p as [|c1 [|c2 [|c3 p]]]; [reflexivity | | | trivial].
  - change (String c1 "" +:+ q) with (String c1 q). unfold space_at_front.
    destruct q as [|? [|? ?]]; intros H; [exact H | |].
    + by apply orb_false_elim in H as [H _].
    + apply orb_false_elim in H as [H _]. by apply orb_false_elim in H as [H _].
  - change (String c1 (String c2 "") +:+ q) with (String c1 (String c2 q)).
    unfold space_at_front.
    destruct q as [|? ?]; intros H; [exact H |].
    by apply orb_false_elim in H as [H _].
Qed.

(** [strip] removes a run of whitespace on each side and leaves a string
    that neither begins nor ends with a whitespace character. *)
Lemma strip_trims (s : string) :
  exists pre post : string,
    s = pre +:+ strip s +:+ post
    /\ spaces true pre /\ spaces true post
    /\ space_at_front true (strip s) = false
    /\ space_at_front false (String.rev (strip s)) = false.
Proof.
  destruct (strip_front_cut true s) as (pre & Hpre & Hsp).
  destruct (strip_front_cut false (String.rev (lstrip s))) as (q & Hq & Hsq).
  assert (Hl : lstrip s = strip s +:+ String.rev q).
  { rewrite <- (rev_involutive (lstrip s)), Hq, rev_app_distr. reflexivity. }
  exists pre, (String.rev q). repeat split.
  - fold (lstrip s) in Hpre. by rewrite <- Hl.
  - exact Hsp.
  - by apply spaces_rev.
  - apply (space_at_front_prefix _ (String.rev q)). rewrite <- Hl.
    apply strip_front_stops.
  - unfold strip, rstrip. rewrite rev_involutive. apply strip_front_stops.
Qed.

(** *** The examples, run *)

Example start_example :
  snd (start atom_repr Examples.env) = Serving Examples.cfg.
Proof. vm_compute. reflexivity. Qed.

Example start_without_token :
  start atom_repr {[ "WATCHED_IMAGES" := "nginx" ]} = ([], Exited token_required).
Proof. vm_compute. reflexivity. Qed.

Example start_with_blank_images :
  start atom_repr {[ "GOTIFY_TOKEN" := "s3cret"; "WATCHED_IMAGES" := " , ," ]}
  = ([], Exited images_required).
Proof. vm_compute. reflexivity. Qed.

(** A no-break space (U+00A0) and an em space (U+2003) are trimmed too. *)
Example strip_unicode_spaces :
  strip (String "194" (String "160" ("nginx " +:+ String "226" (String "128" (String "131" "")))))
  = "nginx".
Proof. vm_compute. reflexivity. Qed.

Example malformed_body :
  docker_webhook atom_repr utf8_stdout Examples.cfg (Examples.answering 200)
    (Raise Examples.bad_request)
  = ([Print "Error processing webhook: 400 Bad Request: Failed to decode JSON object"],
     Ok (Text "Error processing webhook", 500)).
Proof. reflexivity. Qed.

Example body_is_a_list :
  docker_webhook atom_repr utf8_stdout Examples.cfg (Examples.answering 200) (Ok (JArr []))
  = ([Print "Error processing webhook: 'list' object has no attribute 'get'"],
     Ok (Text "Error processing webhook", 500)).
Proof. reflexivity. Qed.

Example service_unreachable :
  docker_webhook atom_repr utf8_stdout Examples.cfg Examples.unreachable
    (Ok (JObj Examples.event_keys Examples.push_event))
  = ([HttpPost Examples.push_request; Print "Error processing webhook: Connection refused"],
     Ok (Text "Error processing webhook", 500)).
Proof. vm_compute. reflexivity. Qed.

Example bare_event_fields :
  extract (JObj Examples.bare_keys Examples.bare_event)
  = ([], Ok (mk_fields (JStr "Unknown") (JStr "Unknown") (JStr "Unknown") (JStr "Unknown"))).
Proof. vm_compute. reflexivity. Qed.

Example bare_event_response :
  docker_webhook atom_repr utf8_stdout Examples.cfg (Examples.answering 200)
    (Ok (JObj Examples.bare_keys Examples.bare_event))
  = ([Print "Image Unknown not in watch list"],
     Ok (Text "Image Unknown not in watch list", 200)).
Proof. vm_compute. reflexivity. Qed.

Example created_is_a_failure :
  docker_webhook atom_repr utf8_stdout Examples.cfg (Examples.answering 201)
    (Ok (JObj Examples.event_keys Examples.push_event))
  = ([HttpPost Examples.push_request; Print "Failed to send notification: 201 - {}"],
     Ok (Text "Failed to send notification", 500)).
Proof. vm_compute. reflexivity. Qed.

(** ** Further properties of the handlers *)

Lemma extract_eq (data : json) : extract data = ([], outcome (extract data)).
Proof.
  pose proof (extract_pure data) as H.
  destruct (extract data) as [tr r]. simpl in *. by subst.
Qed.

(** The handler, path by path. *)
Lemma docker_webhook_eq py_repr stdout cfg svc (rj : result json) :
  docker_webhook py_repr stdout cfg svc rj
  = match rj with
    | Raise e => webhook_except e
    | Ok data =>
        match py_get data "action" JNull with
        | Raise e => webhook_except e
        | Ok action =>
            if py_eq_str action "push" then
              match outcome (extract data) with
              | Raise e => webhook_except e
              | Ok f => catch (notify py_repr stdout cfg svc f) webhook_except
              end
            else ([], Ok (Text "Not a push event", 200))
        end
    end.
Proof.
  unfold docker_webhook, webhook_try.
  destruct rj as [data | e]; [| reflexivity].
  rewrite bind_lift_ok.
  destruct (py_get data "action" JNull) as [action | e]; [| reflexivity].
  rewrite bind_lift_ok.
  destruct (py_eq_str action "push"); [| reflexivity]. simpl negb. cbv iota.
  rewrite extract_eq.
  destruct (outcome (extract data)) as [f | e]; [| reflexivity].
  rewrite bind_pure. reflexivity.
Qed.

(** X1. A body that decodes to anything but a JSON object (a list, a
    string, a number, true, false, null) is answered 500 "Error processing
    webhook": [data.get] raises AttributeError; one line is printed and
    nothing is sent. *)
Theorem non_object_body_is_an_error
    (py_repr : json -> string) (stdout : stdout_port) (cfg : config) (svc : service) (v : json) :
  is_dict v = false ->
  docker_webhook py_repr stdout cfg svc (Ok v)
  = ([Print ("Error processing webhook: '" +:+ type_name v
               +:+ "' object has no attribute 'get'")],
     Ok (Text "Error processing webhook", 500)).
Proof.
  intros Hv. rewrite docker_webhook_eq.
  destruct v; try discriminate; reflexivity.
Qed.

Lemma non_object_body_is_an_error_witness :
  docker_webhook atom_repr utf8_stdout Examples.cfg (Examples.answering 200) (Ok JNull)
  = ([Print ("Error processing webhook: '" +:+ type_name JNull
               +:+ "' object has no attribute 'get'")],
     Ok (Text "Error processing webhook", 500)).
Proof.
  apply (non_object_body_is_an_error atom_repr utf8_stdout Examples.cfg
           (Examples.answering 200) JNull).
  reflexivity.
Defined.

(** X2. When [requests.post] raises (connection refused, timeout) for a
    watched push event, the handler answers 500 "Error processing webhook",
    not "Failed to send notification"; the call was attempted once and is
    not repeated. *)
Theorem raising_service_is_an_error
    (py_repr : json -> string) (stdout : stdout_port) (cfg : config) (svc : service)
    (ks : list string) (d r t : gmap string json) (e : exn) :
  push_event d r t ->
  watched cfg r = true ->
  svc (gotify_request py_repr cfg (fields_of r t)) = Raise e ->
  docker_webhook py_repr stdout cfg svc (Ok (JObj ks d))
  = ([HttpPost (gotify_request py_repr cfg (fields_of r t));
      Print ("Error processing webhook: " +:+ exn_msg e)],
     Ok (Text "Error processing webhook", 500)).
Proof.
  intros Hev Hw Hsvc. unfold docker_webhook.
  rewrite (webhook_try_event _ _ _ _ _ _ _ _ Hev), notify_eq, not_watched_spec, Hw, Hsvc.
  reflexivity.
Qed.

Lemma raising_service_is_an_error_witness :
  docker_webhook atom_repr utf8_stdout Examples.cfg Examples.unreachable
    (Ok (JObj Examples.event_keys Examples.push_event))
  = ([HttpPost (gotify_request atom_repr Examples.cfg
                  (fields_of Examples.repository Examples.target));
      Print ("Error processing webhook: "
               +:+ exn_msg (mk_exn RequestException "Connection refused"))],
     Ok (Text "Error processing webhook", 500)).
Proof.
  apply (raising_service_is_an_error atom_repr utf8_stdout Examples.cfg Examples.unreachable
           Examples.event_keys Examples.push_event Examples.repository Examples.target
           (mk_exn RequestException "Connection refused")).
  - repeat split; vm_compute; reflexivity.
  - vm_compute. reflexivity.
  - reflexivity.
Defined.

Lemma notify_outcome_posts py_repr stdout cfg svc (f : fields) :
  let m := catch (notify py_repr stdout cfg svc f) webhook_except in
  length (prints (trace m)) = 1%nat
  /\ ((not_watched cfg f = true
       /\ posts (trace m) = []
       /\ (outcome m = Ok (Text ("Image " +:+ fmt py_repr (repo_full_name f)
                                   +:+ " not in watch list"), 200)
           \/ outcome m = Ok (Text "Error processing webhook", 500)))
      \/ (not_watched cfg f = false
          /\ posts (trace m) = [gotify_request py_repr cfg f]
          /\ ((exists resp, svc (gotify_request py_repr cfg f) = Ok resp
                            /\ status_code resp = 200
                            /\ (outcome m = Ok (Text "Notification sent", 200)
                                \/ outcome m = Ok (Text "Error processing webhook", 500)))
              \/ (exists resp, svc (gotify_request py_repr cfg f) = Ok resp
                               /\ status_code resp <> 200
                               /\ outcome m = Ok (Text "Failed to send notification", 500))
              \/ (exists e, svc (gotify_request py_repr cfg f) = Raise e
                            /\ outcome m = Ok (Text "Error processing webhook", 500))))).
Proof.
  intros m. subst m. rewrite notify_eq.
  destruct (not_watched cfg f).
  - destruct (stdout _); (split; [reflexivity | left; repeat split; auto]).
  - destruct (svc (gotify_request py_repr cfg f)) as [resp | e] eqn:Hsvc.
    + destruct (status_code resp =? 200) eqn:Hc.
      * apply Z.eqb_eq in Hc.
        destruct (stdout _);
          (split; [reflexivity | right; repeat split; left; exists resp; auto]).
      * apply Z.eqb_neq in Hc.
        split; [reflexivity | right; repeat split; right; left; eauto].
    + split; [reflexivity | right; repeat split; right; right; eauto].
Qed.

(** X3. The handler answers "Notification sent" only when it made the call
    and the notification service answered it with status 200, and "Failed
    to send notification" only when the service answered with another
    status. *)
Theorem answer_reflects_downstream
    (py_repr : json -> string) (stdout : stdout_port) (cfg : config) (svc : service)
    (rj : result json) :
  (outcome (docker_webhook py_repr stdout cfg svc rj) = Ok (Text "Notification sent", 200) ->
   exists (f : fields) (resp : post_response),
     posts (trace (docker_webhook py_repr stdout cfg svc rj)) = [gotify_request py_repr cfg f]
     /\ svc (gotify_request py_repr cfg f) = Ok resp
     /\ status_code resp = 200)
  /\ (outcome (docker_webhook py_repr stdout cfg svc rj)
      = Ok (Text "Failed to send notification", 500) ->
      exists (f : fields) (resp : post_response),
        posts (trace (docker_webhook py_repr stdout cfg svc rj)) = [gotify_request py_repr cfg f]
        /\ svc (gotify_request py_repr cfg f) = Ok resp
        /\ status_code resp <> 200).
Proof.
  rewrite docker_webhook_eq.
  destruct rj as [data | e]; [| split; discriminate].
  destruct (py_get data "action" JNull) as [action | e]; [| split; discriminate].
  destruct (py_eq_str action "push"); [| split; discriminate].
  destruct (outcome (extract data)) as [f | e]; [| split; discriminate].
  destruct (notify_outcome_posts py_repr stdout cfg svc f)
    as [_ [(_ & _ & [Ho | Ho])
          | (_ & Hp & [(resp & Hs & Hc & [Ho | Ho])
                      | [(resp & Hs & Hc & Ho) | (e & Hs & Ho)]])]];
    rewrite Ho, ?Hp; split; intros H; try discriminate; eauto.
Qed.

(** X4. Every answer of the webhook route is plain text, one of five: 200
    "Not a push event", 200 "Image ... not in watch list", 200 "Notification
    sent", 500 "Failed to send notification", 500 "Error processing
    webhook". *)
Theorem webhook_answers
    (py_repr : json -> string) (stdout : stdout_port) (cfg : config) (svc : service)
    (rj : result json) :
  let answer := outcome (docker_webhook py_repr stdout cfg svc rj) in
  answer = Ok (Text "Not a push event", 200)
  \/ (exists v : json,
        answer = Ok (Text ("Image " +:+ fmt py_repr v +:+ " not in watch list"), 200))
  \/ answer = Ok (Text "Notification sent", 200)
  \/ answer = Ok (Text "Failed to send notification", 500)
  \/ answer = Ok (Text "Error processing webhook", 500).
Proof.
  intros answer. subst answer. rewrite docker_webhook_eq.
  destruct rj as [data | e]; [| by repeat right].
  destruct (py_get data "action" JNull) as [action | e]; [| by repeat right].
  destruct (py_eq_str action "push"); [| by left].
  destruct (outcome (extract data)) as [f | e]; [| by repeat right].
  destruct (notify_outcome_posts py_repr stdout cfg svc f)
    as [_ [(_ & _ & [Ho | Ho])
          | (_ & _ & [(resp & _ & _ & [Ho | Ho])
                     | [(resp & _ & _ & Ho) | (e & _ & Ho)]])]];
    rewrite Ho; eauto 10.
Qed.

(** X5. For every request exactly one call of print writes its text (a
    text that may hold line breaks of its own, so it need not be one line),
    except for a JSON object whose action is not "push", for which nothing
    is printed. A print that raises writes nothing, and the print of the
    except clause then is the one that writes. *)
Theorem one_print_per_request
    (py_repr : json -> string) (stdout : stdout_port) (cfg : config) (svc : service)
    (rj : result json) :
  length (prints (trace (docker_webhook py_repr stdout cfg svc rj)))
  = match rj with
    | Ok (JObj ks d) =>
        if py_eq_str (default JNull (d !! "action")) "push" then 1%nat else 0%nat
    | _ => 1%nat
    end.
Proof.
  rewrite docker_webhook_eq.
  destruct rj as [data | e]; [| reflexivity].
  destruct data as [| | | | | | ks d]; try reflexivity. simpl py_get. cbv iota.
  destruct (py_eq_str _ "push"); [| reflexivity].
  destruct (outcome (extract (JObj ks d))) as [f | e]; [| reflexivity].
  destruct (notify_outcome_posts py_repr stdout cfg svc f) as [Hl _]. exact Hl.
Qed.

(** X6. The handler calls the notification service only for a JSON object
    that is a push event whose image is on the watch list: nothing else
    ever reaches the service. *)
Theorem only_watched_pushes_are_sent
    (py_repr : json -> string) (stdout : stdout_port) (cfg : config) (svc : service)
    (rj : result json) :
  posts (trace (docker_webhook py_repr stdout cfg svc rj)) <> [] ->
  exists (ks : list string) (d r t : gmap string json),
    rj = Ok (JObj ks d) /\ push_event d r t /\ watched cfg r = true.
Proof.
  rewrite docker_webhook_eq.
  destruct rj as [data | e]; [| intros H; by destruct H].
  destruct data as [| | | | | | ks d]; try (intros H; by destruct H).
  simpl py_get. cbv iota.
  destruct (py_eq_str _ "push") eqn:Ha; [| intros H; by destruct H].
  apply action_push in Ha.
  destruct (outcome (extract (JObj ks d))) as [f | e] eqn:Hf; [| intros H; by destruct H].
  destruct (extract_ok_shaped ks d f Hf) as (r & t & Hr & Ht & ->).
  destruct (notify_outcome_posts py_repr stdout cfg svc (fields_of r t))
    as [_ [(_ & Hp & _) | (Hw & _)]]; [rewrite Hp; intros H; by destruct H |].
  intros _. exists ks, d, r, t. repeat split; try assumption.
  rewrite not_watched_spec in Hw. by apply negb_false_iff in Hw.
Qed.

Lemma only_watched_pushes_are_sent_witness :
  exists (ks : list string) (d r t : gmap string json),
    Ok (JObj Examples.event_keys Examples.push_event) = Ok (JObj ks d) /\ push_event d r t
    /\ watched Examples.cfg r = true.
Proof.
  apply (only_watched_pushes_are_sent atom_repr utf8_stdout Examples.cfg (Examples.answering 503)
           (Ok (JObj Examples.event_keys Examples.push_event))).
  vm_compute. discriminate.
Defined.

(** *** The filter *)

Lemma py_in_str (s : string) (l : list string) : py_in (JStr s) l = true <-> s ∈ l.
Proof.
  unfold py_in. rewrite existsb_exists. split.
  - intros (x & Hx & He). simpl in He. apply bool_decide_eq_true in He. subst.
    by apply list_elem_of_In.
  - intros Hs. exists s. split; [by apply list_elem_of_In |].
    simpl. by apply bool_decide_eq_true.
Qed.

Lemma py_in_as_str (v : json) (l : list string) :
  py_in v l = true <-> exists s, as_str v = Some s /\ s ∈ l.
Proof.
  destruct v; simpl;
    try (split; [intros H | intros (s & [=] & _)];
         unfold py_in in H; apply existsb_exists in H as (x & _ & Hx); discriminate).
  rewrite py_in_str. split; [eauto | by intros (s' & [= ->] & H)].
Qed.

Lemma posts_sent_iff_watched py_repr stdout cfg svc (ks : list string) (d r t : gmap string json) :
  push_event d r t ->
  posts (trace (docker_webhook py_repr stdout cfg svc (Ok (JObj ks d)))) <> []
  <-> watched cfg r = true.
Proof.
  intros Hev. rewrite docker_webhook_posts, (webhook_try_event _ _ _ _ _ _ _ _ Hev).
  rewrite notify_posts, not_watched_spec.
  destruct (watched cfg r); simpl; split; try done.
Qed.

(** X7. The filter compares exactly: a push event reaches the notification
    service if and only if its short name or its full name is a JSON string
    equal to an entry of the watch list. A name that is a number, null or
    any other non-string never matches. *)
Theorem sent_iff_name_on_watch_list
    (py_repr : json -> string) (stdout : stdout_port) (cfg : config) (svc : service)
    (ks : list string) (d r t : gmap string json) :
  push_event d r t ->
  posts (trace (docker_webhook py_repr stdout cfg svc (Ok (JObj ks d)))) <> []
  <-> exists s : string,
        (as_str (field r "name") = Some s \/ as_str (field r "repo_name") = Some s)
        /\ s ∈ WATCHED_IMAGES cfg.
Proof.
  intros Hev. rewrite (posts_sent_iff_watched _ _ _ _ _ _ _ _ Hev).
  unfold watched. rewrite orb_true_iff, !py_in_as_str. split.
  - intros [(s & Hs & Hin) | (s & Hs & Hin)]; exists s; auto.
  - intros (s & [Hs | Hs] & Hin); [left | right]; eauto.
Qed.

Lemma sent_iff_name_on_watch_list_witness :
  posts (trace (docker_webhook atom_repr utf8_stdout Examples.cfg Examples.unreachable
                  (Ok (JObj Examples.event_keys Examples.push_event)))) <> []
  <-> exists s : string,
        (as_str (field Examples.repository "name") = Some s
         \/ as_str (field Examples.repository "repo_name") = Some s)
        /\ s ∈ WATCHED_IMAGES Examples.cfg.
Proof.
  apply (sent_iff_name_on_watch_list atom_repr utf8_stdout Examples.cfg Examples.unreachable
           Examples.event_keys Examples.push_event Examples.repository Examples.target).
  repeat split; vm_compute; reflexivity.
Defined.

(** X8. The placeholder takes part in the filter: a push event without
    "repository" reaches the notification service if and only if the watch
    list has the entry "Unknown". *)
Theorem nameless_push_is_sent_iff_unknown_is_watched
    (py_repr : json -> string) (stdout : stdout_port) (cfg : config) (svc : service)
    (ks : list string) (d t : gmap string json) :
  d !! "action" = Some (JStr "push") ->
  d !! "repository" = None ->
  sub_object d "target" = Some t ->
  posts (trace (docker_webhook py_repr stdout cfg svc (Ok (JObj ks d)))) <> []
  <-> "Unknown" ∈ WATCHED_IMAGES cfg.
Proof.
  intros Ha Hr Ht.
  assert (Hev : push_event d ∅ t).
  { repeat split; try assumption. unfold sub_object. by rewrite Hr. }
  rewrite (posts_sent_iff_watched _ _ _ _ _ _ _ _ Hev).
  unfold watched, field. rewrite !lookup_empty. simpl.
  rewrite orb_diag. apply py_in_str.
Qed.

Lemma nameless_push_is_sent_iff_unknown_is_watched_witness :
  posts (trace (docker_webhook atom_repr utf8_stdout Examples.cfg (Examples.answering 200)
                  (Ok (JObj Examples.bare_keys Examples.bare_event)))) <> []
  <-> "Unknown" ∈ WATCHED_IMAGES Examples.cfg.
Proof.
  apply (nameless_push_is_sent_iff_unknown_is_watched atom_repr utf8_stdout Examples.cfg
           (Examples.answering 200) Examples.bare_keys Examples.bare_event ∅).
  - vm_compute. reflexivity.
  - vm_compute. reflexivity.
  - vm_compute. reflexivity.
Defined.

(** *** The server over a history of requests *)

Lemma posts_app (tr1 tr2 : list effect) :
  posts (tr1 ++ tr2)%list = (posts tr1 ++ posts tr2)%list.
Proof. apply omap_app. Qed.

Lemma step_history py_repr stdout (st : server) (a : arrival) :
  history (fst (step py_repr stdout st a))
  = (history st ++ trace (dispatch py_repr stdout (globals st) a))%list.
Proof. unfold step. destruct (dispatch py_repr stdout (globals st) a). reflexivity. Qed.

Lemma serve_cons py_repr stdout (st : server) (a : arrival) (l : list arrival) :
  fst (serve py_repr stdout st (a :: l))
  = fst (serve py_repr stdout (fst (step py_repr stdout st a)) l).
Proof.
  simpl. destruct (step py_repr stdout st a) as [st1 r]. simpl.
  destruct (serve py_repr stdout st1 l). reflexivity.
Qed.

Lemma dispatch_posts py_repr stdout (cfg : config) (a : arrival) :
  (length (posts (trace (dispatch py_repr stdout cfg a)))
   <= match arr_request a with POST_docker_webhook _ => 1 | GET_health => 0 end)%nat.
Proof.
  unfold dispatch. destruct (arr_request a) as [rj |]; [| simpl; lia].
  rewrite docker_webhook_posts. apply webhook_try_posts.
Qed.

(** X9. Over any sequence of requests the process calls the notification
    service at most once for each webhook delivery, and never for a health
    request. *)
Theorem calls_bounded_by_deliveries
    (py_repr : json -> string) (stdout : stdout_port) (st : server) (l : list arrival) :
  (length (posts (history (fst (serve py_repr stdout st l))))
   <= length (posts (history st)) + webhook_requests l)%nat.
Proof.
  revert st. induction l as [|a l IH]; intros st; [simpl; lia |].
  rewrite serve_cons. etransitivity; [apply IH |].
  rewrite step_history, posts_app, length_app.
  pose proof (dispatch_posts py_repr stdout (globals st) a) as Hd.
  simpl. destruct (arr_request a); lia.
Qed.

(** X10. Nothing is remembered between deliveries: a watched push event
    delivered again is sent again, the same request each time, whatever the
    notification service answered before. *)
Theorem redelivery_is_sent_again
    (py_repr : json -> string) (stdout : stdout_port) (st : server) (svcs : list service)
    (ks : list string) (d r t : gmap string json) :
  push_event d r t ->
  watched (globals st) r = true ->
  posts (history (fst (serve py_repr stdout st (deliveries (Ok (JObj ks d)) svcs))))
  = (posts (history st)
     ++ repeat (gotify_request py_repr (globals st) (fields_of r t)) (length svcs))%list.
Proof.
  intros Hev Hw. revert st Hw.
  induction svcs as [|svc svcs IH]; intros st Hw; [simpl; by rewrite app_nil_r |].
  unfold deliveries. simpl List.map. fold (deliveries (Ok (JObj ks d)) svcs).
  rewrite serve_cons.
  pose proof (step_globals py_repr stdout st
                (mk_arrival (POST_docker_webhook (Ok (JObj ks d))) svc))
    as Hg.
  rewrite IH by (by rewrite Hg).
  rewrite Hg, step_history, posts_app. unfold dispatch. simpl arr_request. cbv iota.
  rewrite docker_webhook_posts, (webhook_try_event _ _ _ _ _ _ _ _ Hev).
  rewrite notify_posts, not_watched_spec, Hw. simpl.
  by rewrite <- app_assoc.
Qed.

Lemma redelivery_is_sent_again_witness :
  posts (history (fst (serve atom_repr utf8_stdout (mk_server Examples.cfg [])
                         (deliveries (Ok (JObj Examples.event_keys Examples.push_event))
                            [Examples.answering 200; Examples.unreachable]))))
  = (posts (history (mk_server Examples.cfg []))
     ++ repeat (gotify_request atom_repr (globals (mk_server Examples.cfg []))
                  (fields_of Examples.repository Examples.target))
          (length [Examples.answering 200; Examples.unreachable]))%list.
Proof.
  apply (redelivery_is_sent_again atom_repr utf8_stdout (mk_server Examples.cfg [])
           [Examples.answering 200; Examples.unreachable]
           Examples.event_keys Examples.push_event Examples.repository Examples.target).
  - repeat split; vm_compute; reflexivity.
  - vm_compute. reflexivity.
Defined.

(** ** Further properties of the configuration *)

Lemma strip_front_eq (fwd : bool) (c1 : ascii) (r1 : string) :
  strip_front fwd (String c1 r1)
  = if space1 c1 then strip_front fwd r1
    else match r1 with
         | String c2 r2 =>
             if space2_at fwd c1 c2 then strip_front fwd r2
             else match r2 with
                  | String c3 r3 =>
                      if space3_at fwd c1 c2 c3 then strip_front fwd r3
                      else String c1 r1
                  | "" => String c1 r1
                  end
         | "" => String c1 r1
         end.
Proof. reflexivity. Qed.

(** Nothing is dropped from a string that does not begin with a whitespace
    character. *)
Lemma strip_front_id (fwd : bool) (x : string) :
  space_at_front fwd x = false -> strip_front fwd x = x.
Proof.
  destruct x as [|c1 [|c2 [|c3 r]]]; [reflexivity | | |];
    unfold space_at_front; intros H; rewrite strip_front_eq.
  - by rewrite H.
  - apply orb_false_elim in H as [H1 H2]. by rewrite H1, H2.
  - apply orb_false_elim in H as [H H3]. apply orb_false_elim in H as [H1 H2].
    by rewrite H1, H2, H3.
Qed.

Lemma strip_id (x : string) : trimmed x -> strip x = x.
Proof.
  intros [Hf Hb]. unfold strip, rstrip, lstrip.
  rewrite (strip_front_id true x Hf), (strip_front_id false _ Hb).
  apply rev_involutive.
Qed.

Lemma strip_trimmed (s : string) : trimmed (strip s).
Proof.
  destruct (strip_trims s) as (pre & post & _ & _ & _ & Hf & Hb). by split.
Qed.

(** The first byte of a two- or three-byte whitespace character is not an
    ASCII whitespace, nor do the first two bytes of a three-byte one make a
    two-byte one. *)
Lemma space2_not_space1 (c1 c2 : ascii) :
  space2_at true c1 c2 = true -> space1 c1 = false.
Proof.
  unfold space2_at, space2, space1. intros H.
  apply andb_true_iff in H as [H _]. apply N.eqb_eq in H. by rewrite H.
Qed.

Lemma space3_not_shorter (c1 c2 c3 : ascii) :
  space3_at true c1 c2 c3 = true ->
  space1 c1 = false /\ space2_at true c1 c2 = false.
Proof.
  unfold space3_at, space3, space2_at, space2, space1. cbv zeta. intros H.
  destruct (N.eqb_spec (byte c1) 225) as [-> |]; [by split |].
  destruct (N.eqb_spec (byte c1) 226) as [-> |]; [by split |].
  destruct (N.eqb_spec (byte c1) 227) as [-> |]; [by split |].
  simpl in H. discriminate.
Qed.

Lemma lstrip_spaces (s : string) : spaces true s -> lstrip s = "".
Proof.
  unfold lstrip.
  induction 1 as [| c s Hc _ IH | c1 c2 s Hc _ IH | c1 c2 c3 s Hc _ IH];
    [reflexivity | | |]; rewrite strip_front_eq.
  - by rewrite Hc.
  - by rewrite (space2_not_space1 _ _ Hc), Hc.
  - destruct (space3_not_shorter _ _ _ Hc) as [H1 H2]. by rewrite H1, H2, Hc.
Qed.

(** [strip] gives the empty string for runs of whitespace, and for nothing
    else. *)
Lemma strip_empty_iff (s : string) : strip s = "" <-> spaces true s.
Proof.
  split.
  - intros He. destruct (strip_trims s) as (pre & post & Hs & Hpre & Hpost & _).
    rewrite He in Hs. rewrite Hs. by apply spaces_app.
  - intros Hs. unfold strip. by rewrite (lstrip_spaces s Hs).
Qed.

Lemma occurs_app (c : ascii) (a b : string) :
  occurs c (a +:+ b) = occurs c a || occurs c b.
Proof.
  induction a as [|x a IH]; [reflexivity |].
  change (String x a +:+ b) with (String x (a +:+ b)). simpl.
  by rewrite IH, orb_assoc.
Qed.

Lemma split_without_sep (sep : ascii) (x : string) :
  occurs sep x = false -> split sep x = [x].
Proof.
  induction x as [|c x IH]; [reflexivity |]. simpl.
  intros H. apply orb_false_elim in H as [Hc Hx].
  by rewrite Hc, (IH Hx).
Qed.

Lemma split_entry_sep (sep : ascii) (x rest : string) :
  occurs sep x = false ->
  split sep (x +:+ String sep rest) = x :: split sep rest.
Proof.
  induction x as [|c x IH]; intros H.
  - simpl. by rewrite Ascii.eqb_refl.
  - simpl in H. apply orb_false_elim in H as [Hc Hx].
    change (String c x +:+ String sep rest) with (String c (x +:+ String sep rest)).
    simpl. by rewrite Hc, (IH Hx).
Qed.

(** Splitting what [join] made gives the entries back. *)
Lemma split_of_join (sep : ascii) (l : list string) :
  l <> [] ->
  Forall (fun entry => occurs sep entry = false) l ->
  split sep (join (String sep "") l) = l.
Proof.
  induction l as [|x l IH]; [done |]. intros _ Hl.
  apply Forall_cons in Hl as [Hx Hl].
  destruct l as [|y l]; [by apply split_without_sep |].
  rewrite join_cons.
  change (x +:+ String sep "" +:+ join (String sep "") (y :: l))
    with (x +:+ String sep (join (String sep "") (y :: l))).
  rewrite (split_entry_sep _ _ _ Hx), IH; [reflexivity | discriminate | exact Hl].
Qed.

Lemma watched_of_elem (s x : string) :
  In x (watched_of s) ->
  exists entry, In entry (split "," s) /\ x = strip entry /\ x <> "".
Proof.
  unfold watched_of. rewrite in_map_iff.
  intros (entry & <- & Hin). apply filter_In in Hin as [Hin Ht].
  exists entry. repeat split; [exact Hin |].
  intros He. apply truthy_str_false in He. congruence.
Qed.

Lemma strip_keeps_absent (c : ascii) (s : string) :
  occurs c s = false -> occurs c (strip s) = false.
Proof.
  destruct (strip_trims s) as (pre & post & Hs & _).
  intros H. rewrite Hs, !occurs_app in H.
  apply orb_false_elim in H as [_ H]. by apply orb_false_elim in H as [H _].
Qed.

Lemma watched_of_clean (s : string) : Forall clean_entry (watched_of s).
Proof.
  apply Forall_forall. intros x Hx. apply list_elem_of_In in Hx.
  destruct (watched_of_elem s x Hx) as (entry & Hin & -> & Hne).
  repeat split; [exact Hne | apply strip_trimmed | apply strip_trimmed |].
  apply strip_keeps_absent.
  destruct (split_join "," s) as [_ Hf].
  rewrite Forall_forall in Hf. apply Hf. by apply list_elem_of_In.
Qed.

Lemma watched_of_join_clean (l : list string) :
  Forall clean_entry l -> watched_of (join "," l) = l.
Proof.
  intros Hl. destruct l as [|x l]; [reflexivity |].
  unfold watched_of. rewrite split_of_join; [| discriminate |].
  - induction Hl as [|y l' (Hne & Ht & _) _ IH]; [reflexivity |].
    assert (Hy : truthy_str y = true) by (destruct y; [contradiction | reflexivity]).
    simpl. rewrite (strip_id y Ht), Hy. simpl. by rewrite (strip_id y Ht), IH.
  - eapply Forall_impl; [exact Hl |]. by intros y (_ & _ & Hy).
Qed.

(** The module body, outcome by outcome. *)
Lemma start_eq py_repr (env : gmap string string) :
  start py_repr env
  = if truthy_opt (env !! "GOTIFY_TOKEN") then
      match watched_of (default "" (env !! "WATCHED_IMAGES")) with
      | [] => ([], Exited images_required)
      | w :: ws =>
          let cfg := {| GOTIFY_URL := default "http://localhost:80" (env !! "GOTIFY_URL");
                        GOTIFY_TOKEN := default "" (env !! "GOTIFY_TOKEN");
                        WATCHED_IMAGES := w :: ws |} in
          (banner py_repr cfg, Serving cfg)
      end
    else ([], Exited token_required).
Proof.
  unfold start, load, getenv, getenv_or.
  destruct (truthy_opt (env !! "GOTIFY_TOKEN")); [| reflexivity].
  destruct (watched_of (default "" (env !! "WATCHED_IMAGES"))); reflexivity.
Qed.

Lemma start_serving py_repr (env : gmap string string) (tr : list effect) (cfg : config) :
  start py_repr env = (tr, Serving cfg) ->
  tr = banner py_repr cfg
  /\ GOTIFY_URL cfg = default "http://localhost:80" (env !! "GOTIFY_URL")
  /\ env !! "GOTIFY_TOKEN" = Some (GOTIFY_TOKEN cfg)
  /\ WATCHED_IMAGES cfg = watched_of (default "" (env !! "WATCHED_IMAGES")).
Proof.
  rewrite start_eq.
  destruct (env !! "GOTIFY_TOKEN") as [[|c tok]|]; simpl; try discriminate.
  destruct (watched_of _) as [|w ws]; [discriminate |].
  intros [= <- <-]. by repeat split.
Qed.

(** The entries of a string are what [split] gives, and nothing else. *)
Lemma entries_of_split (s : string) (l : list string) :
  entries_of s l <-> l = split "," s.
Proof.
  split.
  - intros (Hne & <- & Hl). symmetry. by apply split_of_join.
  - intros ->. destruct (split_join "," s) as [Hj Hf].
    repeat split; [apply split_not_nil | exact Hj | exact Hf].
Qed.

Lemma names_no_image_spec (env : gmap string string) :
  names_no_image env <-> watched_of (default "" (env !! "WATCHED_IMAGES")) = [].
Proof.
  unfold names_no_image. destruct (env !! "WATCHED_IMAGES") as [s |]; simpl.
  - rewrite watched_of_nil. split.
    + intros (l & Hl & Hsp). apply entries_of_split in Hl as ->.
      eapply Forall_impl; [exact Hsp |]. intros entry. apply strip_empty_iff.
    + intros Hsp. exists (split "," s). split; [by apply entries_of_split |].
      eapply Forall_impl; [exact Hsp |]. intros entry. apply strip_empty_iff.
  - split; [reflexivity | trivial].
Qed.

(** What line 12 keeps of the entries: each one that is not whitespace
    only, without the whitespace around it. *)
Lemma kept_trimmed_comprehension (l : list string) :
  kept_trimmed l (List.map strip (List.filter (fun img => truthy_str (strip img)) l)).
Proof.
  induction l as [|entry l IH]; [constructor |]. simpl.
  destruct (truthy_str (strip entry)) eqn:E.
  - simpl. apply kept_keep; [| | exact IH].
    + intros He. rewrite He in E. discriminate.
    + split; [apply strip_trimmed |].
      destruct (strip_trims entry) as (pre & post & Hs & Hpre & Hpost & _). eauto.
  - apply kept_drop; [| exact IH].
    apply strip_empty_iff. by apply truthy_str_false.
Qed.

(** C8. At process start: when GOTIFY_TOKEN is unset or empty, or
    WATCHED_IMAGES is unset, empty, or has only whitespace between its
    commas, the module body raises and the process exits without serving;
    otherwise it serves with a watch list that holds the entries between the
    commas, each without the whitespace around it, those that are whitespace
    only left out, and that list is not empty. *)
Theorem startup_requires_token_and_images
    (py_repr : json -> string) (env : gmap string string) :
  (no_token env \/ names_no_image env ->
   exists e : exn, start py_repr env = ([], Exited e) /\ exn_kind e = ValueError)
  /\ (~ (no_token env \/ names_no_image env) ->
      exists (tr : list effect) (cfg : config) (entries : list string),
        start py_repr env = (tr, Serving cfg)
        /\ entries_of (default "" (env !! "WATCHED_IMAGES")) entries
        /\ kept_trimmed entries (WATCHED_IMAGES cfg)
        /\ WATCHED_IMAGES cfg <> []
        /\ env !! "GOTIFY_TOKEN" = Some (GOTIFY_TOKEN cfg)
        /\ GOTIFY_TOKEN cfg <> "")
  /\ (env !! "WATCHED_IMAGES" = None \/ env !! "WATCHED_IMAGES" = Some "" ->
      names_no_image env).
Proof.
  rewrite names_no_image_spec, no_token_spec. unfold getenv.
  split; [| split].
  - intros H. rewrite start_eq.
    destruct (truthy_opt (env !! "GOTIFY_TOKEN"));
      [| exists token_required; by split].
    destruct H as [H | H]; [discriminate |]. rewrite H.
    exists images_required. by split.
  - intros H. rewrite start_eq.
    destruct (truthy_opt (env !! "GOTIFY_TOKEN")) eqn:Ht; [| tauto].
    destruct (watched_of (default "" (env !! "WATCHED_IMAGES"))) as [|w ws] eqn:Hw;
      [tauto |].
    eexists _, _, (split "," (default "" (env !! "WATCHED_IMAGES"))).
    split; [reflexivity |]. simpl.
    split; [by apply entries_of_split |].
    split; [rewrite <- Hw; apply kept_trimmed_comprehension |].
    split; [discriminate |].
    destruct (env !! "GOTIFY_TOKEN") as [[|c tok]|]; try discriminate.
    split; [reflexivity | discriminate].
  - intros [-> | ->]; reflexivity.
Qed.

(** The configuration of the examples: a blank entry and the whitespace
    around the names are gone. *)
Example startup_example :
  exists tr : list effect,
    start atom_repr Examples.env = (tr, Serving Examples.cfg)
    /\ entries_of " myapp/web, ,nginx ," [" myapp/web"; " "; "nginx "; ""]
    /\ kept_trimmed [" myapp/web"; " "; "nginx "; ""] (WATCHED_IMAGES Examples.cfg).
Proof.
  eexists. split; [vm_compute; reflexivity |].
  split; [by rewrite entries_of_split |].
  apply (kept_trimmed_comprehension [" myapp/web"; " "; "nginx "; ""]).
Qed.

(** X11. Every entry of the watch list the process serves with is not
    empty, has no whitespace at either end, and holds no comma. *)
Theorem served_watch_list_is_clean
    (py_repr : json -> string) (env : gmap string string)
    (tr : list effect) (cfg : config) :
  start py_repr env = (tr, Serving cfg) ->
  Forall clean_entry (WATCHED_IMAGES cfg).
Proof.
  intros Hs. apply start_serving in Hs as (_ & _ & _ & ->). apply watched_of_clean.
Qed.

Lemma served_watch_list_is_clean_witness :
  Forall clean_entry (WATCHED_IMAGES Examples.cfg).
Proof.
  apply (served_watch_list_is_clean atom_repr Examples.env
           (banner atom_repr Examples.cfg) Examples.cfg).
  vm_compute. reflexivity.
Defined.

(** X12. The watch list comes out empty exactly when every entry between
    the commas of WATCHED_IMAGES is a run of whitespace characters (the
    empty entry included). *)
Theorem watch_list_empty_iff_blank (s : string) :
  watched_of s = [] <-> Forall (spaces true) (split "," s).
Proof.
  rewrite watched_of_nil. apply Forall_iff. intros entry. apply strip_empty_iff.
Qed.

(** X13. Any list of clean entries can be configured: written with commas
    between the entries it is read back as the same list, in the same
    order. *)
Theorem clean_list_reads_back (l : list string) :
  Forall clean_entry l -> watched_of (join "," l) = l.
Proof. apply watched_of_join_clean. Qed.

Lemma clean_list_reads_back_witness :
  watched_of (join "," ["myapp/web"; "nginx"]) = ["myapp/web"; "nginx"].
Proof.
  apply (clean_list_reads_back ["myapp/web"; "nginx"]).
  repeat constructor; try discriminate; vm_compute; reflexivity.
Defined.

Lemma split_length (sep : ascii) (s : string) :
  length (split sep s) = S (count_char sep s).
Proof.
  induction s as [|c s IH]; [reflexivity |]. simpl.
  destruct (Ascii.eqb c sep); simpl; [by rewrite IH |].
  pose proof (split_not_nil sep s) as Hne.
  destruct (split sep s) as [|w ws]; [contradiction | exact IH].
Qed.

(** X14. [split] on the comma gives one entry more than there are commas;
    no entry holds a comma, and the entries joined with commas are the
    string again. *)
Theorem split_entries (s : string) :
  length (split "," s) = S (count_char "," s)
  /\ Forall (fun entry => occurs "," entry = false) (split "," s)
  /\ join "," (split "," s) = s.
Proof.
  split; [apply split_length |].
  destruct (split_join "," s) as [Hj Hf]. by split.
Qed.

(** X15. [strip] is idempotent, and it leaves a string as it is exactly
    when the string has no whitespace character at either end. *)
Theorem strip_fixed_points (s : string) :
  strip (strip s) = strip s /\ (strip s = s <-> trimmed s).
Proof.
  split; [apply strip_id, strip_trimmed |].
  split; [intros <-; apply strip_trimmed | apply strip_id].
Qed.

(** X16. The token is checked first: without it the process exits with the
    token's error, whatever WATCHED_IMAGES holds; with it and no image, with
    the images' error. A failed start prints nothing; a successful one prints
    the URL line and then the watch-list line. *)
Theorem startup_reports
    (py_repr : json -> string) (env : gmap string string) :
  (no_token env -> start py_repr env = ([], Exited token_required))
  /\ (~ no_token env -> no_images env -> start py_repr env = ([], Exited images_required))
  /\ (forall tr cfg, start py_repr env = (tr, Serving cfg) ->
        tr = [Print ("Gotify URL: " +:+ GOTIFY_URL cfg);
              Print ("Watching images: "
                       +:+ py_repr (JArr (JStr <$> WATCHED_IMAGES cfg)))]).
Proof.
  split; [| split].
  - intros Ht. apply no_token_spec in Ht. unfold getenv in Ht.
    by rewrite start_eq, Ht.
  - intros Ht Hi. rewrite no_token_spec in Ht. apply not_false_is_true in Ht.
    apply no_images_spec in Hi. unfold getenv, getenv_or in *.
    by rewrite start_eq, Ht, Hi.
  - intros tr cfg Hs. by apply start_serving in Hs as (-> & _).
Qed.


(** X18. From the environment to the wire: once the process serves, a
    watched push event is sent, once, to the URL made of GOTIFY_URL (or the
    default) and "/message", with the GOTIFY_TOKEN of the environment as the
    only query parameter. *)
Theorem configured_endpoint_is_called
    (py_repr : json -> string) (stdout : stdout_port) (env : gmap string string)
    (tr : list effect) (cfg : config) (svc : service)
    (ks : list string) (d r t : gmap string json) :
  start py_repr env = (tr, Serving cfg) ->
  push_event d r t ->
  watched cfg r = true ->
  exists (req : post_request) (token : string),
    posts (trace (docker_webhook py_repr stdout cfg svc (Ok (JObj ks d)))) = [req]
    /\ post_url req = default "http://localhost:80" (env !! "GOTIFY_URL") +:+ "/message"
    /\ env !! "GOTIFY_TOKEN" = Some token
    /\ post_params req = {[ "token" := token ]}.
Proof.
  intros Hs Hev Hw. apply start_serving in Hs as (_ & Hu & Ht & _).
  exists (gotify_request py_repr cfg (fields_of r t)), (GOTIFY_TOKEN cfg).
  rewrite docker_webhook_posts, (webhook_try_event _ _ _ _ _ _ _ _ Hev).
  rewrite notify_posts, not_watched_spec, Hw. simpl.
  by rewrite Hu.
Qed.

Lemma configured_endpoint_is_called_witness :
  exists (req : post_request) (token : string),
    posts (trace (docker_webhook atom_repr utf8_stdout Examples.cfg Examples.unreachable
                    (Ok (JObj Examples.event_keys Examples.push_event)))) = [req]
    /\ post_url req
       = default "http://localhost:80" (Examples.env !! "GOTIFY_URL") +:+ "/message"
    /\ Examples.env !! "GOTIFY_TOKEN" = Some token
    /\ post_params req = {[ "token" := token ]}.
Proof.
  apply (configured_endpoint_is_called atom_repr utf8_stdout Examples.env
           (banner atom_repr Examples.cfg) Examples.cfg Examples.unreachable
           Examples.event_keys Examples.push_event Examples.repository Examples.target).
  - vm_compute. reflexivity.
  - repeat split; vm_compute; reflexivity.
  - vm_compute. reflexivity.
Defined.

(** X19. A name that is empty, begins or ends with a whitespace character,
    or holds a comma cannot be watched: a push event whose names are all of
    that kind is never sent, whatever WATCHED_IMAGES held at start. *)
Theorem unclean_names_never_match
    (py_repr : json -> string) (stdout : stdout_port) (env : gmap string string)
    (tr : list effect) (cfg : config) (svc : service)
    (ks : list string) (d r t : gmap string json) :
  start py_repr env = (tr, Serving cfg) ->
  push_event d r t ->
  (forall s : string,
     as_str (field r "name") = Some s \/ as_str (field r "repo_name") = Some s ->
     ~ clean_entry s) ->
  posts (trace (docker_webhook py_repr stdout cfg svc (Ok (JObj ks d)))) = [].
Proof.
  intros Hs Hev Hbad.
  assert (Hclean : Forall clean_entry (WATCHED_IMAGES cfg)).
  { apply start_serving in Hs as (_ & _ & _ & ->). apply watched_of_clean. }
  destruct (posts (trace (docker_webhook py_repr stdout cfg svc (Ok (JObj ks d))))) eqn:Hp;
    [reflexivity | exfalso].
  assert (Hne : posts (trace (docker_webhook py_repr stdout cfg svc (Ok (JObj ks d)))) <> [])
    by (rewrite Hp; discriminate).
  apply (posts_sent_iff_watched _ _ _ _ _ _ _ _ Hev) in Hne.
  unfold watched in Hne. rewrite orb_true_iff, !py_in_as_str in Hne.
  rewrite Forall_forall in Hclean.
  destruct Hne as [(s & Hs' & Hin) | (s & Hs' & Hin)];
    apply (Hbad s); auto.
Qed.

Lemma unclean_names_never_match_witness :
  posts (trace (docker_webhook atom_repr utf8_stdout Examples.cfg (Examples.answering 200)
                  (Ok (JObj Examples.event_keys Examples.untrimmed_event)))) = [].
Proof.
  apply (unclean_names_never_match atom_repr utf8_stdout Examples.env
           (banner atom_repr Examples.cfg) Examples.cfg (Examples.answering 200)
           Examples.event_keys Examples.untrimmed_event Examples.untrimmed_repository
           Examples.target).
  - vm_compute. reflexivity.
  - repeat split; vm_compute; reflexivity.
  - intros s [H | H]; vm_compute in H; injection H as <-;
      intros (_ & [Hf _] & _); vm_compute in Hf; discriminate.
Defined.

(** A tag with a lone surrogate: the notification is sent, the print of
    line 62 raises, and the answer is 500. *)
Example odd_tag_is_sent_and_answered_500 :
  docker_webhook atom_repr utf8_stdout Examples.cfg (Examples.answering 200)
    (Ok (JObj Examples.event_keys Examples.odd_tag_event))
  = ([HttpPost (gotify_request atom_repr Examples.cfg
                  (fields_of Examples.repository Examples.odd_tag_target));
      Print ("Error processing webhook: 'utf-8' codec can't encode character '\ud800' "
               +:+ "in position 34: surrogates not allowed")],
     Ok (Text "Error processing webhook", 500)).
Proof. vm_compute. reflexivity. Qed.

Example odd_name_is_answered_500 :
  docker_webhook atom_repr utf8_stdout Examples.cfg (Examples.answering 200)
    (Ok (JObj Examples.event_keys Examples.odd_name_event))
  = ([Print ("Error processing webhook: 'utf-8' codec can't encode character '\ud800' "
               +:+ "in position 14: surrogates not allowed")],
     Ok (Text "Error processing webhook", 500)).
Proof. vm_compute. reflexivity. Qed.
